(** * Totoro in the Rain: the fixed-timestep stepper and the rain pool

    A shallow embedding of [src/final_project.js] (class [Simulation],
    class [TotoroScene], both revisions of the file) and of the spawn
    expression of [Assignment3.update_state].

    Numbers.  The scene, the bodies and the stepper are modelled on exact
    rationals [Q]; every decimal literal of the source is the rational it
    denotes ([0.1] is [1 # 10]), and comparisons of a vector norm with a
    constant are decided on squares.  The machine computes with binary64
    doubles instead.  Where the two part ways, the statements over [Q] are
    kept to what rounding cannot overturn (bounds with room, counts, the
    values of a fresh accumulator), and the stepper is embedded a second
    time on the doubles themselves ([Simulation64]), where the runs that
    rounding decides are computed as the machine computes them.  The
    Float32 storage of tiny-graphics vectors is outside both models. *)

From Stdlib Require Import Floats.
From Stdlib Require Import QArith Qabs Qminmax Qround Qpower Lqa ZArith Lia.
From Stdlib Require Import String List Bool.
Import ListNotations.

Set Implicit Arguments.
Set Warnings "-inexact-float".
Open Scope Q_scope.

(** ** JavaScript arithmetic used by the source *)

Module JS.

(** [a < b] on numbers, as a boolean. *)
Definition ltb (a b : Q) : bool := negb (Qle_bool b a).

(** [a <= b] on numbers, as a boolean. *)
Definition leb (a b : Q) : bool := Qle_bool a b.

(** [a === b] on numbers. *)
Definition eqb (a b : Q) : bool := Qeq_bool a b.

(** [Math.sign]. *)
Definition Math_sign (q : Q) : Q :=
  match q ?= 0 with
  | Gt => 1
  | Eq => 0
  | Lt => -1
  end.

(** [Math.min]. *)
Definition Math_min (a b : Q) : Q := Qmin a b.

(** [Math.abs]. *)
Definition Math_abs (a : Q) : Q := Qabs a.

(** [Math.sqrt] on the squares of rationals, where the root is rational:
    numerator and denominator of the reduced fraction are rooted
    separately.  The scene calls it on the squares 1 and 1.69 only (the
    unit down vector and the spawn velocity); off the squares the result is
    rounded down and stands for nothing the machine computes, so the one
    class that takes roots of arbitrary numbers, [Assignment3], is given
    the root as a parameter instead. *)
Definition Math_sqrt (q : Q) : Q :=
  let r := Qred q in
  Z.sqrt (Qnum r) # Pos.sqrt (Qden r).

(** [Math.PI], the double nearest to pi. *)
Definition Math_PI : Q := 884279719003555 # 281474976710656.

(** How a call ends: it returns, it throws, or (in the model only) the
    iteration budget of a [while] loop is used up. *)
Inductive outcome (A : Type) : Type :=
| Returned (a : A)
| Threw (msg : string) (a : A)
| OutOfFuel.

Arguments OutOfFuel {A}.

End JS.

Import JS.

(** ** tiny-graphics vectors and the [Body] of the collisions demo *)

Module Tiny.

(** Modelled from the spec: the [vec3] of tiny-graphics and the methods the
    source calls on it ([plus], [times], [dot], [norm], [normalized],
    [randomized], [mix]); [examples/common.js] is not part of the sources. *)
Record vec3 : Type := Vec3 { at0 : Q; at1 : Q; at2 : Q }.

Definition vmap (f : Q -> Q) (v : vec3) : vec3 :=
  Vec3 (f (at0 v)) (f (at1 v)) (f (at2 v)).

Definition plus (a b : vec3) : vec3 :=
  Vec3 (at0 a + at0 b) (at1 a + at1 b) (at2 a + at2 b).

Definition times (v : vec3) (s : Q) : vec3 := vmap (fun c => c * s) v.

Definition dot (a b : vec3) : Q :=
  at0 a * at0 b + at1 a * at1 b + at2 a * at2 b.

Definition norm (v : vec3) : Q := Math_sqrt (dot v v).

Definition normalized (v : vec3) : vec3 := times v (1 / norm v).

(** [v.norm() > c], decided on squares. *)
Definition norm_gt (v : vec3) (c : Q) : bool :=
  ltb c 0 || ltb (c * c) (dot v v).

(** [v.norm() < c], decided on squares. *)
Definition norm_lt (v : vec3) (c : Q) : bool :=
  ltb 0 c && ltb (dot v v) (c * c).

(** [v.randomized(s)]: every coordinate moves by [s * (Math.random() - .5)];
    [r0], [r1], [r2] are the three draws. *)
Definition randomized (v : vec3) (s : Q) (r0 r1 r2 : Q) : vec3 :=
  Vec3 (at0 v + s * (r0 - 0.5)) (at1 v + s * (r1 - 0.5)) (at2 v + s * (r2 - 0.5)).

(** [a.mix(b, s)]: linear interpolation, coordinate by coordinate. *)
Definition mix (a b : vec3) (s : Q) : vec3 :=
  Vec3 ((1 - s) * at0 a + s * at0 b)
       ((1 - s) * at1 a + s * at1 b)
       ((1 - s) * at2 a + s * at2 b).

Definition veq (a b : vec3) : Prop :=
  at0 a == at0 b /\ at1 a == at1 b /\ at2 a == at2 b.

Inductive Shape : Type := cylinder | sphere.
Inductive Material : Type := rain | rainBright | test_material.

(** One kinematic snapshot: where the body is and how far it has turned
    about its spin axis. *)
Record Snapshot : Type := { snap_center : vec3; snap_rotation : Q }.

(** What the renderer receives: position, turn and scale. *)
Record Placement : Type :=
  { drawn_center : vec3; drawn_rotation : Q; drawn_size : vec3 }.

(** Modelled from the spec: class [Body] of [examples/collisions-demo.js],
    which is not part of the sources.  A body links a shape and a material,
    has a half-size, the current and the previous kinematic state, a linear
    and an angular velocity, and the blended [drawn_location].  The
    orientation is kept as the accumulated angle about the spin axis. *)
Record Body : Type := mkBody
  { shape : Shape;
    material : Material;
    size : vec3;
    center : vec3;
    rotation : Q;
    previous : Snapshot;
    linear_velocity : vec3;
    angular_velocity : Q;
    drawn_location : Placement }.

(** [new Body(shape, material, size).emplace(location, linear_velocity,
    angular_velocity)]: the body starts at [location] with both snapshots
    equal. *)
Definition emplace (sh : Shape) (m : Material) (sz : vec3)
    (location : vec3) (lv : vec3) (av : Q) : Body :=
  {| shape := sh; material := m; size := sz;
     center := location; rotation := 0;
     previous := {| snap_center := location; snap_rotation := 0 |};
     linear_velocity := lv; angular_velocity := av;
     drawn_location :=
       {| drawn_center := location; drawn_rotation := 0; drawn_size := sz |} |}.

(** [b.advance(time_amount)]: the current state becomes the previous one and
    the velocities are integrated over [time_amount]. *)
Definition advance (time_amount : Q) (b : Body) : Body :=
  {| shape := shape b; material := material b; size := size b;
     center := plus (center b) (times (linear_velocity b) time_amount);
     rotation := rotation b + time_amount * angular_velocity b;
     previous := {| snap_center := center b; snap_rotation := rotation b |};
     linear_velocity := linear_velocity b;
     angular_velocity := angular_velocity b;
     drawn_location := drawn_location b |}.

(** [b.blend_state(alpha)]: [drawn_location] is the interpolation of the
    previous and the current state at [alpha]. *)
Definition blend_state (alpha : Q) (b : Body) : Body :=
  {| shape := shape b; material := material b; size := size b;
     center := center b; rotation := rotation b; previous := previous b;
     linear_velocity := linear_velocity b;
     angular_velocity := angular_velocity b;
     drawn_location :=
       {| drawn_center := mix (snap_center (previous b)) (center b) alpha;
          drawn_rotation :=
            (1 - alpha) * snap_rotation (previous b) + alpha * rotation b;
          drawn_size := size b |} |}.

(** [b.linear_velocity[1] = v] *)
Definition set_velocity1 (v : Q) (b : Body) : Body :=
  {| shape := shape b; material := material b; size := size b;
     center := center b; rotation := rotation b; previous := previous b;
     linear_velocity :=
       Vec3 (at0 (linear_velocity b)) v (at2 (linear_velocity b));
     angular_velocity := angular_velocity b;
     drawn_location := drawn_location b |}.

(** [b.center[1] = h] *)
Definition set_center1 (h : Q) (b : Body) : Body :=
  {| shape := shape b; material := material b; size := size b;
     center := Vec3 (at0 (center b)) h (at2 (center b));
     rotation := rotation b; previous := previous b;
     linear_velocity := linear_velocity b;
     angular_velocity := angular_velocity b;
     drawn_location := drawn_location b |}.

End Tiny.

Import Tiny.

(** ** class Simulation *)

Module Simulation.

(** The fields the constructor of [Simulation] assigns; [self] holds the
    fields a subclass adds. *)
Record Sim (X : Type) : Type := mkSim
  { time_accumulator : Q;
    time_scale : Q;
    t : Q;
    dt : Q;
    bodies : list Body;
    steps_taken : Z;
    raining : bool;
    self : X }.

(** [constructor()] *)
Definition new {X : Type} (x : X) : Sim X :=
  {| time_accumulator := 0; time_scale := 1; t := 0; dt := 1 / 20;
     bodies := []; steps_taken := 0; raining := true; self := x |}.

Definition set_bodies {X : Type} (bs : list Body) (s : Sim X) : Sim X :=
  {| time_accumulator := time_accumulator s; time_scale := time_scale s;
     t := t s; dt := dt s; bodies := bs; steps_taken := steps_taken s;
     raining := raining s; self := self s |}.

Definition set_self {X : Type} (x : X) (s : Sim X) : Sim X :=
  {| time_accumulator := time_accumulator s; time_scale := time_scale s;
     t := t s; dt := dt s; bodies := bodies s; steps_taken := steps_taken s;
     raining := raining s; self := x |}.

Definition set_time_accumulator {X : Type} (a : Q) (s : Sim X) : Sim X :=
  {| time_accumulator := a; time_scale := time_scale s;
     t := t s; dt := dt s; bodies := bodies s; steps_taken := steps_taken s;
     raining := raining s; self := self s |}.

Definition set_time_scale {X : Type} (a : Q) (s : Sim X) : Sim X :=
  {| time_accumulator := time_accumulator s; time_scale := a;
     t := t s; dt := dt s; bodies := bodies s; steps_taken := steps_taken s;
     raining := raining s; self := self s |}.

(** The override point: a scene class supplies [update_state(dt)]. *)
Class Scene (X : Type) : Type :=
  { update_state : Q -> Sim X -> outcome (Sim X) }.

(** [Simulation.update_state]: the abstract method of the base class. *)
Definition abstract_update_state {X : Type} (d : Q) (s : Sim X)
  : outcome (Sim X) :=
  Threw "Override this" s.

(** A scene that adds no field and overrides nothing: the base class. *)
#[export] Instance Base : Scene unit :=
  { update_state := abstract_update_state }.

(** A subclass that adds the fields [X] and inherits [update_state]. *)
Definition not_overridden (X : Type) : Scene X :=
  {| update_state := abstract_update_state |}.

Section Stepper.

Context {X : Type} {scene : Scene X}.

(** The statements of the [while] body that follow [update_state]: advance
    every body, move the clock, repay the accumulator, count the step.
    The sums are exact here; [Simulation64.after_update] has them as the
    machine rounds them. *)
Definition after_update (frame_time : Q) (s : Sim X) : Sim X :=
  {| time_accumulator := time_accumulator s - Math_sign frame_time * dt s;
     time_scale := time_scale s;
     t := t s + Math_sign frame_time * dt s;
     dt := dt s;
     bodies := map (advance (dt s)) (bodies s);
     steps_taken := (steps_taken s + 1)%Z;
     raining := raining s;
     self := self s |}.

(** The [while (Math.abs(this.time_accumulator) >= this.dt)] loop;
    [frame_time] is the scaled frame time and [fuel] bounds the number of
    iterations. *)
Fixpoint substeps (fuel : nat) (frame_time : Q) (s : Sim X)
  : outcome (Sim X) :=
  if leb (dt s) (Math_abs (time_accumulator s)) then
    match fuel with
    | O => OutOfFuel
    | S fuel' =>
        match update_state (dt s) s with
        | Returned s1 => substeps fuel' frame_time (after_update frame_time s1)
        | Threw msg s1 => Threw msg s1
        | OutOfFuel => OutOfFuel
        end
    end
  else Returned s.

(** The two statements after the loop: compute [alpha] and blend. *)
Definition blend_all (s : Sim X) : Sim X :=
  let alpha := time_accumulator s / dt s in
  set_bodies (map (blend_state alpha) (bodies s)) s.

(** [this.time_accumulator += Math.min(frame_time, 0.1);] with the scaled
    frame time. *)
Definition accumulate (frame_time : Q) (s : Sim X) : Sim X :=
  set_time_accumulator (time_accumulator s + Math_min frame_time 0.1) s.

(** [simulate(frame_time)] *)
Definition simulate (fuel : nat) (frame_time : Q) (s : Sim X)
  : outcome (Sim X) :=
  let frame_time := time_scale s * frame_time in
  let s := accumulate frame_time s in
  match substeps fuel frame_time s with
  | Returned s1 => Returned (blend_all s1)
  | Threw msg s1 => Threw msg s1
  | OutOfFuel => OutOfFuel
  end.

(** The driver calls [simulate] once per display tick; a throw ends the
    run. *)
Fixpoint simulate_all (fuel : nat) (frame_times : list Q) (s : Sim X)
  : outcome (Sim X) :=
  match frame_times with
  | [] => Returned s
  | ft :: rest =>
      match simulate fuel ft s with
      | Returned s1 => simulate_all fuel rest s1
      | Threw msg s1 => Threw msg s1
      | OutOfFuel => OutOfFuel
      end
  end.

End Stepper.

End Simulation.

Import Simulation.

(** ** class TotoroScene, second revision of [final_project.js] *)

Module TotoroScene.

(** The fields the constructor of [TotoroScene] adds.  Fields that hold
    shapes, materials or matrices ([shapes], [materials], [camera_transform],
    [totoro.facing], ...) are rendering data and are left out; every number
    and flag that [update_state] reads is kept.  [random_draws] counts the
    calls of [Math.random] made so far.  [pickPurpleUmbrella] is
    [this.mouse_controls.pickPurpleUmbrella] as [update_state] tests it: the
    constructor of [Mouse_Controls] leaves it undefined, which tests as
    false until the first mouse press. *)
Record Fields : Type := mkFields
  { angle : Q;
    angleSatsuki : Q;
    scene_number : Z;
    time : Q;
    time_diff : Q;
    paused : bool;
    totoroPos : Q;
    totoroPosY : Q;
    totoroUmbrellaPos : vec3;
    umbrellaState : bool;
    lightOn : bool;
    totoroJump : bool;
    totoroIsJumping : bool;
    totoroJump_start : Q;
    normal_rain_count : nat;
    jump_rain_count : nat;
    rain_count : nat;
    leg_angle : Z;
    facing_angle : Q;
    pickPurpleUmbrella : bool;
    random_draws : nat }.

(** [constructor()] *)
Definition new_fields : Fields :=
  {| angle := 0.1; angleSatsuki := 1.1; scene_number := 1; time := 0;
     time_diff := 0; paused := false; totoroPos := 20; totoroPosY := 1.1;
     totoroUmbrellaPos := Vec3 (-4) 2 0; umbrellaState := true;
     lightOn := false; totoroJump := false; totoroIsJumping := false;
     totoroJump_start := 0; normal_rain_count := 500;
     jump_rain_count := 1000; rain_count := 500; leg_angle := 0;
     facing_angle := 0; pickPurpleUmbrella := false; random_draws := 0 |}.

Definition new : Sim Fields := Simulation.new new_fields.

(** Assignment of the four fields the pool part of [update_state] writes. *)
Definition set_pool (time' time_diff' : Q) (rain_count' draws' : nat)
    (f : Fields) : Fields :=
  {| angle := angle f; angleSatsuki := angleSatsuki f;
     scene_number := scene_number f; time := time'; time_diff := time_diff';
     paused := paused f; totoroPos := totoroPos f;
     totoroPosY := totoroPosY f; totoroUmbrellaPos := totoroUmbrellaPos f;
     umbrellaState := umbrellaState f; lightOn := lightOn f;
     totoroJump := totoroJump f; totoroIsJumping := totoroIsJumping f;
     totoroJump_start := totoroJump_start f;
     normal_rain_count := normal_rain_count f;
     jump_rain_count := jump_rain_count f; rain_count := rain_count';
     leg_angle := leg_angle f; facing_angle := facing_angle f;
     pickPurpleUmbrella := pickPurpleUmbrella f; random_draws := draws' |}.

Section Rain.

(** The global random source: [Math_random n] is the value of the [n]-th
    call of [Math.random()]. *)
Variable Math_random : nat -> Q.

(** [this.time += dt; if (this.paused) this.time_diff += dt;] *)
Definition tick (d : Q) (f : Fields) : Fields :=
  set_pool (time f + d)
           (if paused f then time_diff f + d else time_diff f)
           (rain_count f) (random_draws f) f.

(** The velocity every new raindrop receives. *)
Definition spawn_velocity : vec3 := times (normalized (Vec3 0 (-1) 0)) 1.3.

(** The position a new raindrop receives from the draws [n], [n+1], [n+2]. *)
Definition spawn_position (n : nat) : vec3 :=
  randomized (Vec3 0 10 0) 40
    (Math_random n) (Math_random (n + 1)) (Math_random (n + 2)).

(** One [this.bodies.push(new Body(...).emplace(...))]: the position takes
    three draws and the angular velocity a fourth.  The two branches of the
    source differ in the material only. *)
Definition spawn (s : Sim Fields) : Sim Fields :=
  let f := self s in
  let n := random_draws f in
  let m := if Nat.eqb (rain_count f) (jump_rain_count f)
           then rainBright else rain in
  let b := emplace sphere m (Vec3 0.05 0.05 0.05)
             (spawn_position n) spawn_velocity (Math_random (n + 3)) in
  set_self (set_pool (time f) (time_diff f) (rain_count f) (n + 4) f)
           (set_bodies (bodies s ++ [b]) s).

(** [while (this.bodies.length < this.rain_count) spawn]; [fuel] bounds the
    iterations, and [rain_count] of them always suffice. *)
Fixpoint replenish (fuel : nat) (s : Sim Fields) : Sim Fields :=
  match fuel with
  | O => s
  | S fuel' =>
      if Nat.ltb (length (bodies s)) (rain_count (self s))
      then replenish fuel' (spawn s)
      else s
  end.

(** [if (this.rain_count === this.jump_rain_count)
       this.rain_count = this.normal_rain_count;] *)
Definition end_burst (f : Fields) : Fields :=
  if Nat.eqb (rain_count f) (jump_rain_count f)
  then set_pool (time f) (time_diff f) (normal_rain_count f) (random_draws f) f
  else f.

(** [b.linear_velocity[1] += dt * -1;] *)
Definition gravity (d : Q) (b : Body) : Body :=
  set_velocity1 (at1 (linear_velocity b) + d * -1) b.

(** The predicate of the filter under "Delete bodies that bounce". *)
Definition survives (b : Body) : bool :=
  leb (at1 (linear_velocity b)) 0 || norm_gt (linear_velocity b) 1.2.

(** The body of the last loop: "If about to fall through floor, reverse y
    velocity". *)
Definition floor_response (b : Body) : Body :=
  if ltb (at1 (center b)) 0.5 && ltb (at1 (linear_velocity b)) 0
  then set_center1 0.5 (set_velocity1 (at1 (linear_velocity b) * -0.2) b)
  else b.

(** The three passes over [this.bodies], in the order of the source. *)
Definition move_bodies (d : Q) (bs : list Body) : list Body :=
  map floor_response (filter survives (map (gravity d) bs)).

(** [totoro_jump(time)], called with [this.time]: the height of the jump,
    and on landing the burst of rain.  Returns the new [totoroPosY],
    [totoroJump], [totoroJump_start], [totoroIsJumping] and [rain_count]. *)
Definition totoro_jump (tm start : Q) (jump jumping : bool)
    (rc jump_rc : nat) : Q * bool * Q * bool * nat :=
  let posY := 2.5 * (tm - start) - 1 * (tm - start) * (tm - start) + 1.1 in
  if ltb posY 1.1 then (1.1, false, 0, false, jump_rc)
  else (posY, jump, start, jumping, rc).

(** The scripted part of [update_state]: everything after the last loop
    over the bodies.  It reads and writes scene fields only. *)
Definition script (f : Fields) : Fields :=
  let tm := time f in
  let scene1 := if ltb 0 tm && ltb tm 10 then 1%Z else scene_number f in
  let light1 := if ltb 10 tm && ltb tm 10.1 then true else lightOn f in
  let scene2 := if ltb 20 tm && ltb tm 40 then 2%Z else scene1 in
  let walk_in := ltb 40 tm && ltb tm 80 && ltb 0 (totoroPos f) in
  let facing1 := if walk_in then - Math_PI / 2 else facing_angle f in
  let pos1 := if walk_in then totoroPos f + -0.03 else totoroPos f in
  let leg1 := if walk_in then (leg_angle f + 1)%Z else leg_angle f in
  let turn := leb pos1 0 && ltb facing1 0 in
  let facing2 := if turn then facing1 + 0.006 else facing1 in
  let paused1 := if turn then true else paused f in
  let pick := pickPurpleUmbrella f in
  let open_satsuki := paused1 && umbrellaState f && negb pick
                      && ltb (angleSatsuki f) 1.1 in
  let open_totoro := paused1 && umbrellaState f && negb open_satsuki
                     && pick && ltb (angle f) 1.1 in
  let close_satsuki := paused1 && negb (umbrellaState f) && negb pick
                       && ltb 0.2 (angleSatsuki f) in
  let close_totoro := paused1 && negb (umbrellaState f) && negb close_satsuki
                      && pick && ltb 0.2 (angle f) in
  let angleS1 := if open_satsuki then angleSatsuki f + 0.1
                 else if close_satsuki then angleSatsuki f - 0.1
                 else angleSatsuki f in
  let angle1 := if open_totoro then angle f + 0.1
                else if close_totoro then angle f - 0.1
                else angle f in
  let jumps := paused1 && totoroJump f in
  let start1 := if jumps && eqb (totoroJump_start f) 0 then tm
                else totoroJump_start f in
  let '(posY1, jump1, start2, jumping1, rc1) :=
    if jumps
    then totoro_jump tm start1 (totoroJump f) true
           (rain_count f) (jump_rain_count f)
    else (totoroPosY f, totoroJump f, start1, totoroIsJumping f,
          rain_count f) in
  let td := tm - time_diff f in
  let go := negb paused1 in
  let angle2 := if go && ltb 80 td && ltb angle1 1.1 then angle1 + 0.01
                else angle1 in
  let ux1 := if go && ltb 100 td && leb td 103
             then at0 (totoroUmbrellaPos f) + 0.03
             else at0 (totoroUmbrellaPos f) in
  let facing3 := if go && ltb 100 td && ltb facing2 (Math_PI / 2)
                 then facing2 + 0.005 else facing2 in
  let ux2 := if go && ltb 110 td && ltb td 135 then ux1 + 0.03 else ux1 in
  let walk_out := go && ltb 113 td && ltb td 135 in
  let pos2 := if walk_out then pos1 + 0.03 else pos1 in
  let leg2 := if walk_out then (leg1 + 1)%Z else leg1 in
  let uy1 := if walk_out && leb (at1 (totoroUmbrellaPos f)) 3
             then at1 (totoroUmbrellaPos f) + 0.05
             else at1 (totoroUmbrellaPos f) in
  let uz1 := if walk_out && leb (at2 (totoroUmbrellaPos f)) 1
             then at2 (totoroUmbrellaPos f) + 0.05
             else at2 (totoroUmbrellaPos f) in
  {| angle := angle2; angleSatsuki := angleS1; scene_number := scene2;
     time := tm; time_diff := time_diff f; paused := paused1;
     totoroPos := pos2; totoroPosY := posY1;
     totoroUmbrellaPos := Vec3 ux2 uy1 uz1;
     umbrellaState := umbrellaState f; lightOn := light1;
     totoroJump := jump1; totoroIsJumping := jumping1;
     totoroJump_start := start2;
     normal_rain_count := normal_rain_count f;
     jump_rain_count := jump_rain_count f; rain_count := rc1;
     leg_angle := leg2; facing_angle := facing3;
     pickPurpleUmbrella := pickPurpleUmbrella f;
     random_draws := random_draws f |}.

(** [update_state(dt)] *)
Definition update_state (d : Q) (s : Sim Fields) : Sim Fields :=
  let s1 := set_self (tick d (self s)) s in
  let s2 := replenish (rain_count (self s1)) s1 in
  let s3 := set_self (end_burst (self s2)) s2 in
  let s4 := set_bodies (move_bodies d (bodies s3)) s3 in
  set_self (script (self s4)) s4.

#[export] Instance scene : Scene Fields :=
  { update_state := fun d s => Returned (update_state d s) }.

End Rain.

End TotoroScene.

(** ** class TotoroScene, first revision of [final_project.js] *)

Module TotoroScene1.

(** The fields of the first revision; [materials_rain] is
    [this.materials.rain], which this revision swaps for a burst, and
    [totoroUmbrellaPos] is still a single number. *)
Record Fields : Type := mkFields
  { angle : Q;
    angleSatsuki : Q;
    scene_number : Z;
    time : Q;
    time_diff : Q;
    paused : bool;
    totoroPos : Q;
    totoroPosY : Q;
    totoroUmbrellaPos : Q;
    umbrellaState : bool;
    lightOn : bool;
    totoroJump : bool;
    totoroIsJumping : bool;
    totoroJump_start : Q;
    normal_rain_count : nat;
    jump_rain_count : nat;
    rain_count : nat;
    leg_angle : Z;
    facing_angle : Q;
    materials_rain : Material;
    random_draws : nat }.

(** [constructor()] *)
Definition new_fields : Fields :=
  {| angle := 0.1; angleSatsuki := 1.1; scene_number := 1; time := 0;
     time_diff := 0; paused := false; totoroPos := 20; totoroPosY := 1.1;
     totoroUmbrellaPos := -4; umbrellaState := true;
     lightOn := false; totoroJump := false; totoroIsJumping := false;
     totoroJump_start := 0; normal_rain_count := 500;
     jump_rain_count := 1000; rain_count := 500; leg_angle := 0;
     facing_angle := 0; materials_rain := rain; random_draws := 0 |}.

Definition new : Sim Fields := Simulation.new new_fields.

(** Assignment of the five fields the pool part of [update_state] writes. *)
Definition set_pool (time' time_diff' : Q) (rain_count' draws' : nat)
    (m : Material) (f : Fields) : Fields :=
  {| angle := angle f; angleSatsuki := angleSatsuki f;
     scene_number := scene_number f; time := time'; time_diff := time_diff';
     paused := paused f; totoroPos := totoroPos f;
     totoroPosY := totoroPosY f; totoroUmbrellaPos := totoroUmbrellaPos f;
     umbrellaState := umbrellaState f; lightOn := lightOn f;
     totoroJump := totoroJump f; totoroIsJumping := totoroIsJumping f;
     totoroJump_start := totoroJump_start f;
     normal_rain_count := normal_rain_count f;
     jump_rain_count := jump_rain_count f; rain_count := rain_count';
     leg_angle := leg_angle f; facing_angle := facing_angle f;
     materials_rain := m; random_draws := draws' |}.

Section Rain.

Variable Math_random : nat -> Q.

Definition tick (d : Q) (f : Fields) : Fields :=
  set_pool (time f + d)
           (if paused f then time_diff f + d else time_diff f)
           (rain_count f) (random_draws f) (materials_rain f) f.

Definition spawn_velocity : vec3 := times (normalized (Vec3 0 (-1) 0)) 3.

Definition spawn_position (n : nat) : vec3 :=
  randomized (Vec3 0 10 0) 40
    (Math_random n) (Math_random (n + 1)) (Math_random (n + 2)).

Definition spawn (s : Sim Fields) : Sim Fields :=
  let f := self s in
  let n := random_draws f in
  let b := emplace cylinder (materials_rain f) (Vec3 0.05 0.05 0.05)
             (spawn_position n) spawn_velocity (Math_random (n + 3)) in
  set_self (set_pool (time f) (time_diff f) (rain_count f) (n + 4)
                     (materials_rain f) f)
           (set_bodies (bodies s ++ [b]) s).

Fixpoint replenish (fuel : nat) (s : Sim Fields) : Sim Fields :=
  match fuel with
  | O => s
  | S fuel' =>
      if Nat.ltb (length (bodies s)) (rain_count (self s))
      then replenish fuel' (spawn s)
      else s
  end.

(** [if (this.rain_count > this.normal_rain_count) { ... }] *)
Definition end_burst (f : Fields) : Fields :=
  if Nat.ltb (normal_rain_count f) (rain_count f)
  then set_pool (time f) (time_diff f) (normal_rain_count f)
                (random_draws f) rain f
  else f.

(** The body of the loop over the bodies: gravity, then the bounce. *)
Definition gravity_and_floor (d : Q) (b : Body) : Body :=
  let b1 := set_velocity1 (at1 (linear_velocity b) + d * -1) b in
  if ltb (at1 (center b1)) 0 && ltb (at1 (linear_velocity b1)) 0
  then set_velocity1 (at1 (linear_velocity b1) * -0.2) b1
  else b1.

(** The predicate of the filter under "Delete bodies that stop or stray too
    far away". *)
Definition survives (b : Body) : bool :=
  norm_lt (center b) 50 && norm_gt (linear_velocity b) 3.

Definition move_bodies (d : Q) (bs : list Body) : list Body :=
  filter survives (map (gravity_and_floor d) bs).

(** [totoro_jump(time)] of this revision also swaps the rain material. *)
Definition totoro_jump (tm start : Q) (jump jumping : bool)
    (rc jump_rc : nat) (m : Material) : Q * bool * Q * bool * nat * Material :=
  let posY := 2.5 * (tm - start) - 1 * (tm - start) * (tm - start) + 1.1 in
  if ltb posY 1.1 then (1.1, false, 0, false, jump_rc, rainBright)
  else (posY, jump, start, jumping, rc, m).

(** The scripted part of [update_state]. *)
Definition script (f : Fields) : Fields :=
  let tm := time f in
  let scene1 := if ltb 0 tm && ltb tm 10 then 1%Z else scene_number f in
  let light1 := if ltb 10 tm && ltb tm 10.1 then true else lightOn f in
  let scene2 := if ltb 20 tm && ltb tm 40 then 2%Z else scene1 in
  let walk_in := ltb 40 tm && ltb tm 80 && ltb 0 (totoroPos f) in
  let facing1 := if walk_in then - Math_PI / 2 else facing_angle f in
  let pos1 := if walk_in then totoroPos f + -0.03 else totoroPos f in
  let leg1 := if walk_in then (leg_angle f + 1)%Z else leg_angle f in
  let turn := leb pos1 0 && ltb facing1 0 in
  let facing2 := if turn then facing1 + 0.006 else facing1 in
  let paused1 := if turn then true else paused f in
  let open_satsuki := paused1 && umbrellaState f
                      && ltb (angleSatsuki f) 1.1 in
  let close_satsuki := paused1 && negb open_satsuki
                       && negb (umbrellaState f)
                       && ltb 0.2 (angleSatsuki f) in
  let angleS1 := if open_satsuki then angleSatsuki f + 0.1
                 else if close_satsuki then angleSatsuki f - 0.1
                 else angleSatsuki f in
  let jumps := paused1 && totoroJump f in
  let start1 := if jumps && eqb (totoroJump_start f) 0 then tm
                else totoroJump_start f in
  let '(posY1, jump1, start2, jumping1, rc1, mat1) :=
    if jumps
    then totoro_jump tm start1 (totoroJump f) true
           (rain_count f) (jump_rain_count f) (materials_rain f)
    else (totoroPosY f, totoroJump f, start1, totoroIsJumping f,
          rain_count f, materials_rain f) in
  let td := tm - time_diff f in
  let go := negb paused1 in
  let angle1 := if go && ltb 80 td && ltb (angle f) 1.1 then angle f + 0.01
                else angle f in
  let u1 := if go && ltb 100 td && leb td 103
            then totoroUmbrellaPos f + 0.03 else totoroUmbrellaPos f in
  let facing3 := if go && ltb 100 td && ltb facing2 (Math_PI / 2)
                 then facing2 + 0.005 else facing2 in
  let u2 := if go && ltb 110 td && ltb td 200 then u1 + 0.03 else u1 in
  let walk_out := go && ltb 113 td && ltb td 200 in
  let pos2 := if walk_out then pos1 + 0.03 else pos1 in
  let leg2 := if walk_out then (leg1 + 1)%Z else leg1 in
  {| angle := angle1; angleSatsuki := angleS1; scene_number := scene2;
     time := tm; time_diff := time_diff f; paused := paused1;
     totoroPos := pos2; totoroPosY := posY1; totoroUmbrellaPos := u2;
     umbrellaState := umbrellaState f; lightOn := light1;
     totoroJump := jump1; totoroIsJumping := jumping1;
     totoroJump_start := start2;
     normal_rain_count := normal_rain_count f;
     jump_rain_count := jump_rain_count f; rain_count := rc1;
     leg_angle := leg2; facing_angle := facing3;
     materials_rain := mat1; random_draws := random_draws f |}.

(** [update_state(dt)] *)
Definition update_state (d : Q) (s : Sim Fields) : Sim Fields :=
  let s1 := set_self (tick d (self s)) s in
  let s2 := replenish (rain_count (self s1)) s1 in
  let s3 := set_self (end_burst (self s2)) s2 in
  let s4 := set_bodies (move_bodies d (bodies s3)) s3 in
  set_self (script (self s4)) s4.

#[export] Instance scene : Scene Fields :=
  { update_state := fun d s => Returned (update_state d s) }.

End Rain.

End TotoroScene1.

(** ** class Assignment3 *)

Module Assignment3.

(** [Assignment3] adds shapes and one material only; the model keeps the
    count of random draws. *)
Record Fields : Type := mkFields { random_draws : nat }.

Definition new : Sim Fields := Simulation.new {| random_draws := 0 |}.

Section Demo.

Variable Math_random : nat -> Q.

(** [Math.sqrt].  The jittered vectors and the centers of falling bodies
    have norms that no rational equals, so the root the machine takes is a
    parameter of this class. *)
Variable Math_sqrt : Q -> Q.

(** [v.norm()] *)
Definition norm (v : vec3) : Q := Math_sqrt (dot v v).

(** [v.normalized()] *)
Definition normalized (v : vec3) : vec3 := times v (1 / norm v).

(** [vec3(0, -1, 0).randomized(2)] with the draws [n], [n+1], [n+2]. *)
Definition jittered_down (n : nat) : vec3 :=
  randomized (Vec3 0 (-1) 0) 2
    (Math_random n) (Math_random (n + 1)) (Math_random (n + 2)).

(** [vec3(0, -1, 0).randomized(2).normalized().times(3)] *)
Definition spawn_velocity (n : nat) : vec3 :=
  times (normalized (jittered_down n)) 3.

Definition spawn_position (n : nat) : vec3 :=
  randomized (Vec3 0 10 0) 40
    (Math_random n) (Math_random (n + 1)) (Math_random (n + 2)).

(** One [push]: three draws for the position, three for the jitter of the
    velocity, one for the angular velocity. *)
Definition spawn (s : Sim Fields) : Sim Fields :=
  let n := random_draws (self s) in
  let b := emplace cylinder test_material (Vec3 0.2 0.2 0.2)
             (spawn_position n) (spawn_velocity (n + 3))
             (Math_random (n + 6)) in
  set_self {| random_draws := n + 7 |} (set_bodies (bodies s ++ [b]) s).

(** [while (this.bodies.length < 30) spawn] *)
Fixpoint replenish (fuel : nat) (s : Sim Fields) : Sim Fields :=
  match fuel with
  | O => s
  | S fuel' =>
      if Nat.ltb (length (bodies s)) 30
      then replenish fuel' (spawn s)
      else s
  end.

Definition gravity_and_floor (d : Q) (b : Body) : Body :=
  let b1 := set_velocity1 (at1 (linear_velocity b) + d * -9.8) b in
  if ltb (at1 (center b1)) (-8) && ltb (at1 (linear_velocity b1)) 0
  then set_velocity1 (at1 (linear_velocity b1) * -0.8) b1
  else b1.

(** [b.center.norm() < 50 && b.linear_velocity.norm() > 3] *)
Definition survives (b : Body) : bool :=
  ltb (norm (center b)) 50 && ltb 3 (norm (linear_velocity b)).

(** [update_state(dt)] *)
Definition update_state (d : Q) (s : Sim Fields) : Sim Fields :=
  let s1 := replenish 30 s in
  set_bodies (filter survives (map (gravity_and_floor d) (bodies s1))) s1.

#[export] Instance scene : Scene Fields :=
  { update_state := fun d s => Returned (update_state d s) }.

End Demo.

End Assignment3.

(** ** The control panel of [TotoroScene] *)

Module ControlPanel.

Import TotoroScene.

(** Assignment of the four flags the key handlers write. *)
Definition set_flags (paused' lightOn' umbrellaState' totoroJump' : bool)
    (f : Fields) : Fields :=
  {| angle := angle f; angleSatsuki := angleSatsuki f;
     scene_number := scene_number f; time := time f;
     time_diff := time_diff f;
     paused := paused'; totoroPos := totoroPos f;
     totoroPosY := totoroPosY f; totoroUmbrellaPos := totoroUmbrellaPos f;
     umbrellaState := umbrellaState'; lightOn := lightOn';
     totoroJump := totoroJump'; totoroIsJumping := totoroIsJumping f;
     totoroJump_start := totoroJump_start f;
     normal_rain_count := normal_rain_count f;
     jump_rain_count := jump_rain_count f; rain_count := rain_count f;
     leg_angle := leg_angle f; facing_angle := facing_angle f;
     pickPurpleUmbrella := pickPurpleUmbrella f;
     random_draws := random_draws f |}.

(** [this.raining = r] *)
Definition set_raining {X : Type} (r : bool) (s : Sim X) : Sim X :=
  {| time_accumulator := time_accumulator s; time_scale := time_scale s;
     t := t s; dt := dt s; bodies := bodies s; steps_taken := steps_taken s;
     raining := r; self := self s |}.

(** The buttons [make_control_panel] creates, by their captions. *)
Inductive Key : Type :=
| Speed_up_time
| Slow_down_time
| Toggle_Light
| Toggle_Rain
| Open_Close_Umbrella
| Make_Totoro_jump
| Continue_scene.

(** The callback of each button.  The time scale is an exact power of 5
    here; [Simulation64.press] has the two time keys as the machine rounds
    them. *)
Definition press (k : Key) (s : Sim Fields) : Sim Fields :=
  let f := self s in
  match k with
  | Speed_up_time => set_time_scale (time_scale s * 5) s
  | Slow_down_time => set_time_scale (time_scale s / 5) s
  | Toggle_Light =>
      set_self
        (set_flags (paused f)
           (if paused f then negb (lightOn f) else lightOn f)
           (umbrellaState f) (totoroJump f) f) s
  | Toggle_Rain =>
      set_raining (if paused f then negb (raining s) else raining s) s
  | Open_Close_Umbrella =>
      set_self
        (set_flags (paused f) (lightOn f)
           (if paused f then negb (umbrellaState f) else umbrellaState f)
           (totoroJump f) f) s
  | Make_Totoro_jump =>
      set_self
        (set_flags (paused f) (lightOn f) (umbrellaState f)
           (if totoroIsJumping f then totoroJump f
            else paused f && negb (totoroJump f)) f) s
  | Continue_scene =>
      set_self
        (set_flags false (lightOn f) (umbrellaState f) (totoroJump f) f) s
  end.

(** A sequence of key presses, first to last. *)
Definition press_all (keys : list Key) (s : Sim Fields) : Sim Fields :=
  fold_left (fun acc k => press k acc) keys s.

End ControlPanel.

(** ** class Mouse_Controls: picking an umbrella *)

Module Mouse_Controls.

(** The members the mouse handlers read and write; [None] is
    [undefined]. *)
Record Mouse : Type := mkMouse
  { from_center : Q * Q;
    anchor : option (Q * Q);
    pickPurpleUmbrella : option bool;
    cool_string : option string }.

(** [constructor()] *)
Definition new : Mouse :=
  {| from_center := (0, 0); anchor := None;
     pickPurpleUmbrella := None; cool_string := None |}.

(** The "mouseup" listener. *)
Definition mouseup (m : Mouse) : Mouse :=
  {| from_center := from_center m; anchor := None;
     pickPurpleUmbrella := pickPurpleUmbrella m;
     cool_string := cool_string m |}.

(** The "mousemove" listener; [position] is [mouse_position(e)]. *)
Definition mousemove (position : Q * Q) (m : Mouse) : Mouse :=
  {| from_center := position; anchor := anchor m;
     pickPurpleUmbrella := pickPurpleUmbrella m;
     cool_string := cool_string m |}.

(** The "mouseout" listener. *)
Definition mouseout (m : Mouse) : Mouse :=
  match anchor m with
  | Some _ => m
  | None =>
      {| from_center := (fst (from_center m) * 0, snd (from_center m) * 0);
         anchor := anchor m;
         pickPurpleUmbrella := pickPurpleUmbrella m;
         cool_string := cool_string m |}
  end.

(** The "mousedown" listener; [position] is [mouse_position(e)].  The tests
    read the position stored by the last "mousemove". *)
Definition mousedown (position : Q * Q) (m : Mouse) : Mouse :=
  let x := fst (from_center m) in
  let y := snd (from_center m) in
  let '(label, pick) :=
    if ltb 10 y && ltb y 130 then
      if ltb (-300) x && ltb x (-280) then ("purple umbrella"%string, true)
      else if ltb (-190) x && ltb x (-170) then ("pink umbrella"%string, false)
      else ("no umbrella selected"%string, true)
    else ("no umbrella selected"%string, true) in
  {| from_center := from_center m; anchor := Some position;
     pickPurpleUmbrella := Some pick; cool_string := Some label |}.

(** [this.mouse_controls.pickPurpleUmbrella] in a test. *)
Definition picks_purple (m : Mouse) : bool :=
  match pickPurpleUmbrella m with
  | Some b => b
  | None => false
  end.

(** The scene reads the choice through its reference to the controls. *)
Definition seen_by (m : Mouse) (s : Sim TotoroScene.Fields)
  : Sim TotoroScene.Fields :=
  let f := self s in
  set_self
    {| TotoroScene.angle := TotoroScene.angle f;
       TotoroScene.angleSatsuki := TotoroScene.angleSatsuki f;
       TotoroScene.scene_number := TotoroScene.scene_number f;
       TotoroScene.time := TotoroScene.time f;
       TotoroScene.time_diff := TotoroScene.time_diff f;
       TotoroScene.paused := TotoroScene.paused f;
       TotoroScene.totoroPos := TotoroScene.totoroPos f;
       TotoroScene.totoroPosY := TotoroScene.totoroPosY f;
       TotoroScene.totoroUmbrellaPos := TotoroScene.totoroUmbrellaPos f;
       TotoroScene.umbrellaState := TotoroScene.umbrellaState f;
       TotoroScene.lightOn := TotoroScene.lightOn f;
       TotoroScene.totoroJump := TotoroScene.totoroJump f;
       TotoroScene.totoroIsJumping := TotoroScene.totoroIsJumping f;
       TotoroScene.totoroJump_start := TotoroScene.totoroJump_start f;
       TotoroScene.normal_rain_count := TotoroScene.normal_rain_count f;
       TotoroScene.jump_rain_count := TotoroScene.jump_rain_count f;
       TotoroScene.rain_count := TotoroScene.rain_count f;
       TotoroScene.leg_angle := TotoroScene.leg_angle f;
       TotoroScene.facing_angle := TotoroScene.facing_angle f;
       TotoroScene.pickPurpleUmbrella := picks_purple m;
       TotoroScene.random_draws := TotoroScene.random_draws f |} s.

End Mouse_Controls.

(** ** Drawing: [Simulation.display] and [TotoroScene.draw_shadow] *)

Module Display.

(** One call of [shape.draw]: what is drawn, where, and with which
    material.  The fixed rotation the source appends to every
    [drawn_location] is left out. *)
Record Draw : Type :=
  { drawn_shape : Shape; drawn_at : Placement; drawn_with : Material }.

Section Show.

Context {X : Type} {scene : Scene X}.

(** The loop [for (let b of this.bodies) b.shape.draw(...)], guarded by
    [this.raining]. *)
Definition draw_bodies (s : Sim X) : list Draw :=
  if raining s
  then map (fun b => {| drawn_shape := shape b;
                        drawn_at := drawn_location b;
                        drawn_with := material b |}) (bodies s)
  else [].

(** [Simulation.display]: [animate] and [animation_delta_time] are the two
    members of [program_state] it reads. *)
Definition display (fuel : nat) (animate : bool) (animation_delta_time : Q)
    (s : Sim X) : outcome (Sim X * list Draw) :=
  if animate then
    match simulate fuel animation_delta_time s with
    | Returned s1 => Returned (s1, draw_bodies s1)
    | Threw msg s1 => Threw msg (s1, [])
    | OutOfFuel => OutOfFuel
    end
  else Returned (s, draw_bodies s).

End Show.

(** [draw_shadow(context, program_state, x, y, z, x_scale, z_scale)]: the
    position and the scale of the shadow disc.  [pow] is the operator [**],
    which has no rational counterpart. *)
Definition draw_shadow (pow : Q -> Q -> Q) (x y z x_scale z_scale : Q)
  : vec3 * vec3 :=
  let x_scale := x_scale * 0.3 in
  let z_scale := z_scale * 0.3 in
  let light_pos := Vec3 (-5) 7 0.9 in
  let dist := Vec3 (x - at0 light_pos) (y - at1 light_pos)
                   (z - at2 light_pos) in
  let scale := -0.01 / at1 light_pos in
  let shadow_pos := Vec3 (x - at0 dist * scale) 0.01 (z - at2 dist * scale) in
  let dx := Math_abs (at0 dist) in
  let dz := Math_abs (at2 dist) in
  let shadow_scale := Vec3 (pow 1.1 dx * x_scale) 1 (pow 1.1 dz * z_scale) in
  (shadow_pos, shadow_scale).

End Display.

(** ** The numbers of the machine *)

Module Double.

(** A JavaScript number is a binary64 double; [float] is the kernel's
    binary64 with the operations of IEEE 754, rounding to nearest even. *)

(** [Math.abs] *)
Definition Math_abs (a : float) : float := PrimFloat.abs a.

(** [Math.sign]: 1 or -1, and the argument itself for the two zeros and
    for NaN. *)
Definition Math_sign (a : float) : float :=
  if PrimFloat.ltb 0 a then 1%float
  else if PrimFloat.ltb a 0 then (-1)%float
  else a.

(** [Math.min]: NaN if either argument is NaN, and the negative zero of two
    zeros. *)
Definition Math_min (a b : float) : float :=
  if PrimFloat.is_nan a || PrimFloat.is_nan b then PrimFloat.nan
  else if PrimFloat.ltb a b then a
  else if PrimFloat.ltb b a then b
  else if PrimFloat.get_sign a then a else b.

(** [a >= b] *)
Definition geb (a b : float) : bool := PrimFloat.leb b a.

(** The rational a finite double stands for. *)
Definition exact (a : float) : option Q :=
  match Prim2SF a with
  | S754_zero _ => Some 0
  | S754_finite s m e =>
      Some ((if s then -1 else 1) * (inject_Z (Zpos m) * 2 ^ e))
  | _ => None
  end.

End Double.

(** ** class Simulation, on the numbers of the machine *)

Module Simulation64.

Import Double.

#[local] Open Scope float_scope.

(** The fields of [Simulation] as doubles; [steps_taken] is a number like
    the others.  [B] is the class [Body] of the collisions demo, which
    stores Float32 vectors and is not part of the sources: the stepper only
    hands bodies on, so the class is a parameter here. *)
Record Sim (X B : Type) : Type := mkSim
  { time_accumulator : float;
    time_scale : float;
    t : float;
    dt : float;
    bodies : list B;
    steps_taken : float;
    raining : bool;
    self : X }.

(** [constructor()] *)
Definition new {X B : Type} (x : X) : Sim X B :=
  {| time_accumulator := 0; time_scale := 1; t := 0; dt := 1 / 20;
     bodies := []; steps_taken := 0; raining := true; self := x |}.

Definition set_bodies {X B : Type} (bs : list B) (s : Sim X B) : Sim X B :=
  {| time_accumulator := time_accumulator s; time_scale := time_scale s;
     t := t s; dt := dt s; bodies := bs; steps_taken := steps_taken s;
     raining := raining s; self := self s |}.

Definition set_time_accumulator {X B : Type} (a : float) (s : Sim X B)
  : Sim X B :=
  {| time_accumulator := a; time_scale := time_scale s;
     t := t s; dt := dt s; bodies := bodies s; steps_taken := steps_taken s;
     raining := raining s; self := self s |}.

Definition set_time_scale {X B : Type} (a : float) (s : Sim X B) : Sim X B :=
  {| time_accumulator := time_accumulator s; time_scale := a;
     t := t s; dt := dt s; bodies := bodies s; steps_taken := steps_taken s;
     raining := raining s; self := self s |}.

(** Modelled from the spec: the two methods of [Body] the stepper calls. *)
Class Bodies (B : Type) : Type :=
  { advance : float -> B -> B;
    blend_state : float -> B -> B }.

(** The override point: a scene class supplies [update_state(dt)]. *)
Class Scene (X B : Type) : Type :=
  { update_state : float -> Sim X B -> outcome (Sim X B) }.

(** A scene that owns no body. *)
#[export] Instance no_bodies : Bodies Empty_set :=
  { advance := fun _ b => b; blend_state := fun _ b => b }.

(** The least subclass the stepper runs: it adds no field, owns no body,
    and its [update_state] has an empty body. *)
#[export] Instance Quiet : Scene unit Empty_set :=
  { update_state := fun _ s => Returned s }.

Section Stepper.

Context {X B : Type} {body : Bodies B} {scene : Scene X B}.

(** The statements of the [while] body that follow [update_state]. *)
Definition after_update (frame_time : float) (s : Sim X B) : Sim X B :=
  {| time_accumulator := time_accumulator s - Math_sign frame_time * dt s;
     time_scale := time_scale s;
     t := t s + Math_sign frame_time * dt s;
     dt := dt s;
     bodies := map (advance (dt s)) (bodies s);
     steps_taken := steps_taken s + 1;
     raining := raining s;
     self := self s |}.

(** The [while (Math.abs(this.time_accumulator) >= this.dt)] loop;
    [frame_time] is the scaled frame time and [fuel] bounds the number of
    iterations. *)
Fixpoint substeps (fuel : nat) (frame_time : float) (s : Sim X B)
  : outcome (Sim X B) :=
  if geb (Math_abs (time_accumulator s)) (dt s) then
    match fuel with
    | O => OutOfFuel
    | S fuel' =>
        match update_state (dt s) s with
        | Returned s1 => substeps fuel' frame_time (after_update frame_time s1)
        | Threw msg s1 => Threw msg s1
        | OutOfFuel => OutOfFuel
        end
    end
  else Returned s.

(** The two statements after the loop: compute [alpha] and blend. *)
Definition blend_all (s : Sim X B) : Sim X B :=
  let alpha := time_accumulator s / dt s in
  set_bodies (map (blend_state alpha) (bodies s)) s.

(** [this.time_accumulator += Math.min(frame_time, 0.1);] with the scaled
    frame time. *)
Definition accumulate (frame_time : float) (s : Sim X B) : Sim X B :=
  set_time_accumulator (time_accumulator s + Math_min frame_time 0.1) s.

(** [simulate(frame_time)] *)
Definition simulate (fuel : nat) (frame_time : float) (s : Sim X B)
  : outcome (Sim X B) :=
  let frame_time := time_scale s * frame_time in
  let s := accumulate frame_time s in
  match substeps fuel frame_time s with
  | Returned s1 => Returned (blend_all s1)
  | Threw msg s1 => Threw msg s1
  | OutOfFuel => OutOfFuel
  end.

(** The driver calls [simulate] once per display tick; a throw ends the
    run. *)
Fixpoint simulate_all (fuel : nat) (frame_times : list float) (s : Sim X B)
  : outcome (Sim X B) :=
  match frame_times with
  | [] => Returned s
  | ft :: rest =>
      match simulate fuel ft s with
      | Returned s1 => simulate_all fuel rest s1
      | Threw msg s1 => Threw msg s1
      | OutOfFuel => OutOfFuel
      end
  end.

End Stepper.

(** The two buttons of [make_control_panel] that act on the stepper:
    "Speed up time" and "Slow down time". *)
Inductive TimeKey : Type := Speed_up_time | Slow_down_time.

(** Their callbacks, [this.time_scale *= 5] and [this.time_scale /= 5]. *)
Definition press {X B : Type} (k : TimeKey) (s : Sim X B) : Sim X B :=
  match k with
  | Speed_up_time => set_time_scale (time_scale s * 5) s
  | Slow_down_time => set_time_scale (time_scale s / 5) s
  end.

End Simulation64.

(** * Properties *)

(** ** Comparisons and [Math] functions *)

Lemma leb_true (a b : Q) : leb a b = true <-> a <= b.
Proof. unfold leb. apply Qle_bool_iff. Qed.

Lemma leb_false (a b : Q) : leb a b = false <-> b < a.
Proof.
  unfold leb. split; intro H.
  - apply Qnot_le_lt. intro L. apply Qle_bool_iff in L. congruence.
  - destruct (Qle_bool a b) eqn:E; [|reflexivity].
    apply Qle_bool_iff in E. exfalso. apply (Qlt_not_le _ _ H E).
Qed.

Lemma ltb_true (a b : Q) : ltb a b = true <-> a < b.
Proof.
  unfold ltb. rewrite negb_true_iff. apply (leb_false b a).
Qed.

Lemma ltb_false (a b : Q) : ltb a b = false <-> b <= a.
Proof.
  unfold ltb. rewrite negb_false_iff. apply (leb_true b a).
Qed.

Lemma Math_sign_pos (q : Q) : 0 < q -> Math_sign q = 1.
Proof.
  intro H. unfold Math_sign.
  rewrite (proj1 (Qgt_alt q 0) H). reflexivity.
Qed.


Lemma Math_sign_zero (q : Q) : q == 0 -> Math_sign q = 0.
Proof.
  intro H. unfold Math_sign.
  rewrite (proj1 (Qeq_alt q 0) H). reflexivity.
Qed.

Lemma Math_min_le_l (a b : Q) : Math_min a b <= a.
Proof. apply Q.le_min_l. Qed.

Lemma Math_min_le_r (a b : Q) : Math_min a b <= b.
Proof. apply Q.le_min_r. Qed.

Lemma Math_min_glb (a b c : Q) : c <= a -> c <= b -> c <= Math_min a b.
Proof. apply Q.min_glb. Qed.

Lemma Math_min_small (a b : Q) : a <= b -> Math_min a b == a.
Proof. apply Q.min_l. Qed.

Lemma Math_abs_nonneg (a : Q) : 0 <= a -> Math_abs a == a.
Proof. apply Qabs_pos. Qed.


Lemma inject_Z_succ (n : nat) :
  inject_Z (Z.of_nat (S n)) == inject_Z (Z.of_nat n) + 1.
Proof.
  rewrite Nat2Z.inj_succ. unfold Z.succ. rewrite inject_Z_plus. reflexivity.
Qed.


Lemma inject_Z_add1 (z : Z) : inject_Z (z + 1) == inject_Z z + 1.
Proof. rewrite inject_Z_plus. reflexivity. Qed.

(** Reduce field reads of a state built by the stepper, and nothing else. *)
Ltac sim_fields :=
  cbn [time_accumulator time_scale t dt bodies steps_taken raining self
       accumulate set_time_accumulator set_time_scale set_bodies set_self
       after_update blend_all] in *.

(** ** The stepper, for any scene class *)

Section StepperFacts.

Context {X : Type} {scene : Scene X}.

(** A scene class whose [update_state] returns and leaves the bookkeeping
    fields of the stepper alone, as the three scene classes of the
    repository do. *)
Definition keeps_clock : Prop :=
  forall d s, exists s',
    update_state d s = Returned s' /\
    time_accumulator s' = time_accumulator s /\
    time_scale s' = time_scale s /\
    t s' = t s /\
    dt s' = dt s /\
    steps_taken s' = steps_taken s.

(** Forward playback: with a positive frame time and an accumulator in
    [[0, (n+1) dt)], the loop returns within [n] iterations, leaves the
    accumulator in [[0, dt)], and trades accumulator for steps one [dt] at a
    time. *)
Lemma substeps_forward (K : keeps_clock) (n : nat) :
  forall fuel ft s,
    (n <= fuel)%nat -> 0 < ft -> 0 < dt s ->
    0 <= time_accumulator s ->
    time_accumulator s < (inject_Z (Z.of_nat n) + 1) * dt s ->
    exists s',
      substeps fuel ft s = Returned s' /\
      dt s' = dt s /\ time_scale s' = time_scale s /\
      0 <= time_accumulator s' /\ time_accumulator s' < dt s /\
      (steps_taken s <= steps_taken s')%Z /\
      inject_Z (steps_taken s') * dt s + time_accumulator s'
        == inject_Z (steps_taken s) * dt s + time_accumulator s /\
      t s' - inject_Z (steps_taken s') * dt s
        == t s - inject_Z (steps_taken s) * dt s.
Proof.
  induction n as [|n IH]; intros fuel ft s Hfuel Hft Hdt Hlo Hhi.
  - change (inject_Z (Z.of_nat 0)) with 0 in Hhi.
    assert (E : leb (dt s) (Math_abs (time_accumulator s)) = false).
    { apply leb_false. rewrite (Math_abs_nonneg Hlo). lra. }
    exists s. destruct fuel; simpl; rewrite E;
      repeat split; try reflexivity; try lra; try lia.
  - destruct (leb (dt s) (Math_abs (time_accumulator s))) eqn:E.
    + destruct fuel as [|fuel]; [lia|]. simpl. rewrite E.
      apply leb_true in E. rewrite (Math_abs_nonneg Hlo) in E.
      destruct (K (dt s) s) as (s1 & U & A1 & S1 & T1 & D1 & N1).
      rewrite U.
      rewrite inject_Z_succ in Hhi.
      destruct (IH fuel ft (after_update ft s1)) as
        (s' & R & D' & TS' & Lo' & Hi' & Mon & Bal & Clk).
      * lia.
      * exact Hft.
      * simpl. rewrite D1. exact Hdt.
      * simpl. rewrite (Math_sign_pos Hft), A1, D1. lra.
      * simpl. rewrite (Math_sign_pos Hft), A1, D1. lra.
      * simpl in *. rewrite (Math_sign_pos Hft) in *.
        rewrite D1 in *. rewrite A1, N1, T1 in *. rewrite S1 in *.
        rewrite inject_Z_add1 in *.
        exists s'. repeat split; try assumption; try lia; try lra.
    + apply leb_false in E. rewrite (Math_abs_nonneg Hlo) in E.
      exists s. destruct fuel; simpl;
        (rewrite (proj2 (leb_false _ _)) by (rewrite (Math_abs_nonneg Hlo); exact E));
        repeat split; try reflexivity; try lra; try lia.
Qed.

(** The loop is not entered while the accumulator is below one step. *)
Lemma substeps_idle (fuel : nat) (ft : Q) (s : Sim X) :
  Math_abs (time_accumulator s) < dt s -> substeps fuel ft s = Returned s.
Proof.
  intro H. apply leb_false in H. destruct fuel; simpl; rewrite H; reflexivity.
Qed.

(** The state between two calls of forward playback at scale 1. *)
Definition settled (d : Q) (s : Sim X) : Prop :=
  time_scale s = 1 /\ dt s = d /\
  0 <= time_accumulator s /\ time_accumulator s < d.

(** What the last statement of [simulate] leaves in the bodies. *)
Definition blended (s : Sim X) : Prop :=
  exists bs,
    bodies s = map (blend_state (time_accumulator s / dt s)) bs.

(** One call of [simulate] in forward playback: [N] iterations are enough
    when [N] steps cover the ceiling of [0.1]. *)
Lemma simulate_forward (K : keeps_clock) (N : nat) (d : Q) :
  0 < d -> 0.1 <= inject_Z (Z.of_nat N) * d ->
  forall fuel ft s,
    (N <= fuel)%nat -> 0 <= ft -> settled d s ->
    exists s',
      simulate fuel ft s = Returned s' /\ settled d s' /\ blended s' /\
      (steps_taken s <= steps_taken s')%Z /\
      inject_Z (steps_taken s') * d + time_accumulator s'
        <= inject_Z (steps_taken s) * d + time_accumulator s + ft /\
      t s' - inject_Z (steps_taken s') * d
        == t s - inject_Z (steps_taken s) * d.
Proof.
  intros Hd HN fuel ft s Hfuel Hft (TS & D & Lo & Hi).
  unfold simulate. rewrite TS.
  pose proof (Math_min_le_l (1 * ft) 0.1) as Ml.
  pose proof (Math_min_le_r (1 * ft) 0.1) as Mr.
  assert (Mg : 0 <= Math_min (1 * ft) 0.1)
    by (apply Math_min_glb; lra).
  destruct (Qlt_le_dec 0 ft) as [Pos|Zero].
  - destruct (@substeps_forward K N fuel (1 * ft) (accumulate (1 * ft) s))
      as (s' & R & D' & TS' & Lo' & Hi' & Mon & Bal & Clk);
      simpl; rewrite ?D; try lra; try assumption.
    rewrite R. simpl in *. rewrite D in *.
    exists (blend_all s'). unfold settled, blended. simpl.
    rewrite D', TS', TS.
    repeat split; try assumption; try lra.
    exists (bodies s'). reflexivity.
  - assert (I : Math_abs (time_accumulator (accumulate (1 * ft) s))
                < dt (accumulate (1 * ft) s)).
    { sim_fields. rewrite D. rewrite Math_abs_nonneg; lra. }
    rewrite (substeps_idle fuel (1 * ft) _ I).
    exists (blend_all (accumulate (1 * ft) s)).
    unfold settled, blended. sim_fields. rewrite D, TS.
    repeat split; try reflexivity; try lra; try lia.
    exists (bodies s). reflexivity.
Qed.

Lemma simulate_all_app (fuel : nat) (l : list Q) (ft : Q) (s : Sim X) :
  simulate_all fuel (l ++ [ft]) s =
  match simulate_all fuel l s with
  | Returned s1 => simulate fuel ft s1
  | Threw msg s1 => Threw msg s1
  | OutOfFuel => OutOfFuel
  end.
Proof.
  revert s. induction l as [|a l IH]; intro s; simpl.
  - destruct (simulate fuel ft s); reflexivity.
  - destruct (simulate fuel a s); [apply IH | reflexivity | reflexivity].
Qed.

(** Any number of forward calls: the run returns, the state stays settled,
    and steps plus accumulator never exceed what the frames supplied. *)
Lemma simulate_all_forward (K : keeps_clock) (N : nat) (d : Q) :
  0 < d -> 0.1 <= inject_Z (Z.of_nat N) * d ->
  forall fuel fts s,
    (N <= fuel)%nat -> Forall (fun ft => 0 <= ft) fts -> settled d s ->
    exists s',
      simulate_all fuel fts s = Returned s' /\ settled d s' /\
      (steps_taken s <= steps_taken s')%Z /\
      inject_Z (steps_taken s') * d + time_accumulator s'
        <= inject_Z (steps_taken s) * d + time_accumulator s
           + fold_right Qplus 0 fts /\
      t s' - inject_Z (steps_taken s') * d
        == t s - inject_Z (steps_taken s) * d.
Proof.
  intros Hd HN fuel fts. induction fts as [|ft fts IH];
    intros s Hfuel Hall Hs.
  - exists s. simpl. split; [reflexivity|]. split; [exact Hs|].
    repeat split; try lra; try lia.
  - inversion Hall as [|? ? Hft Hrest]; subst.
    destruct (@simulate_forward K N d Hd HN fuel ft s Hfuel Hft Hs)
      as (s1 & R1 & S1 & _ & M1 & B1 & C1).
    destruct (IH s1 Hfuel Hrest S1) as (s' & R & S' & M & B & C).
    exists s'. simpl. rewrite R1.
    split; [exact R|]. split; [exact S'|].
    repeat split; try lra; try lia.
Qed.

(** Enough iterations for any positive step size. *)
Lemma enough_fuel (d : Q) :
  0 < d -> 0.1 <= inject_Z (Z.of_nat (Z.to_nat (Qceiling (0.1 / d)))) * d.
Proof.
  intro Hd.
  assert (P : 0 <= 0.1 / d).
  { apply Qle_shift_div_l; [exact Hd | lra]. }
  assert (C : (0 <= Qceiling (0.1 / d))%Z).
  { change 0%Z with (Qceiling 0). apply Qceiling_resp_le. exact P. }
  rewrite Z2Nat.id by exact C.
  pose proof (Qle_ceiling (0.1 / d)) as L.
  assert (E : 0.1 == 0.1 / d * d) by (field; lra).
  rewrite E at 1. apply Qmult_le_compat_r; [exact L | lra].
Qed.

(** One iteration of the loop. *)
Lemma substeps_step (fuel : nat) (ft : Q) (s s1 : Sim X) :
  dt s <= Math_abs (time_accumulator s) ->
  update_state (dt s) s = Returned s1 ->
  substeps (S fuel) ft s = substeps fuel ft (after_update ft s1).
Proof.
  intros H U. apply leb_true in H. simpl. rewrite H, U. reflexivity.
Qed.

(** An iteration whose [update_state] throws ends the loop. *)
Lemma substeps_throw (fuel : nat) (ft : Q) (s s1 : Sim X) (msg : string) :
  dt s <= Math_abs (time_accumulator s) ->
  update_state (dt s) s = Threw msg s1 ->
  substeps (S fuel) ft s = Threw msg s1.
Proof.
  intros H U. apply leb_true in H. simpl. rewrite H, U. reflexivity.
Qed.





(** A step size in every coordinate of a blend. *)
Definition within (a b m : Q) : Prop := Qmin a b <= m /\ m <= Qmax a b.

(** [m] lies in the box spanned by [p] and [c]. *)
Definition between (p c m : vec3) : Prop :=
  within (at0 p) (at0 c) (at0 m) /\
  within (at1 p) (at1 c) (at1 m) /\
  within (at2 p) (at2 c) (at2 m).

Lemma mix_within (a b alpha : Q) :
  0 <= alpha -> alpha <= 1 -> within a b ((1 - alpha) * a + alpha * b).
Proof.
  intros L H. unfold within.
  destruct (Q.min_spec a b) as [[Lt Mn]|[Le Mn]];
  destruct (Q.max_spec a b) as [[Lt' Mx]|[Le' Mx]];
  rewrite Mn, Mx; split; nra.
Qed.

Lemma mix_between (p c : vec3) (alpha : Q) :
  0 <= alpha -> alpha <= 1 -> between p c (mix p c alpha).
Proof.
  intros L H. unfold between, mix. simpl.
  repeat split; apply mix_within; assumption.
Qed.

End StepperFacts.

(** ** The stepper: what the calls of [simulate] guarantee *)

Section StepperClaims.

Context {X : Type} {scene : Scene X}.


(** The frame of 0.17 on a fresh simulation, step by step: the clamp adds
    0.1, the loop runs twice, and nothing is left in the accumulator. *)
Lemma simulate_017 (K : keeps_clock) (x : X) (fuel : nat) :
  (2 <= fuel)%nat ->
  exists s1 s2,
    update_state (1 / 20) (accumulate (1 * 0.17) (Simulation.new x))
      = Returned s1 /\
    update_state (1 / 20) (after_update (1 * 0.17) s1) = Returned s2 /\
    simulate fuel 0.17 (Simulation.new x)
      = Returned (blend_all (after_update (1 * 0.17) s2)) /\
    steps_taken (blend_all (after_update (1 * 0.17) s2)) = 2%Z /\
    time_accumulator (blend_all (after_update (1 * 0.17) s2)) == 0 /\
    t (blend_all (after_update (1 * 0.17) s2)) == 0.1.
Proof.
  intro Hfuel.
  destruct fuel as [|[|fuel]]; try lia.
  set (s0 := accumulate (1 * 0.17) (Simulation.new x)).
  destruct (K (1 / 20) s0) as (s1 & U1 & A1 & S1 & T1 & D1 & N1).
  destruct (K (1 / 20) (after_update (1 * 0.17) s1))
    as (s2 & U2 & A2 & S2 & T2 & D2 & N2).
  exists s1, s2.
  sim_fields. subst s0. sim_fields.
  cbn [Simulation.new time_accumulator time_scale t dt steps_taken] in *.
  split; [exact U1|]. split; [exact U2|].
  split.
  - unfold simulate.
    cbn [Simulation.new time_scale].
    rewrite (@substeps_step _ _ (S fuel) (1 * 0.17) _ s1);
      [| vm_compute; discriminate | exact U1].
    rewrite (@substeps_step _ _ fuel (1 * 0.17) _ s2);
      [| sim_fields; rewrite A1, D1; vm_compute; discriminate
       | sim_fields; rewrite D1; exact U2].
    rewrite substeps_idle; [reflexivity|].
    sim_fields. rewrite A2, D2, A1, D1. vm_compute. reflexivity.
  - rewrite N2, N1, A2, A1, T2, T1, D2, D1.
    repeat split; vm_compute; reflexivity.
Qed.

(** C2 (amended).  On a fresh simulation ([dt = 0.05], scale 1, empty
    accumulator) the call [simulate(0.17)] adds the clamped 0.1 to the
    accumulator, runs exactly two sub-steps (two calls of [update_state],
    each followed by the advance of the bodies), leaves
    [time_accumulator = 0] and moves [t] forward by 0.1. *)
Theorem simulate_017_runs_two_substeps
    (K : keeps_clock) (x : X) (fuel : nat) :
  (2 <= fuel)%nat ->
  exists s1 s2 s',
    update_state (1 / 20) (accumulate (1 * 0.17) (Simulation.new x))
      = Returned s1 /\
    update_state (1 / 20) (after_update (1 * 0.17) s1) = Returned s2 /\
    s' = blend_all (after_update (1 * 0.17) s2) /\
    simulate fuel 0.17 (Simulation.new x) = Returned s' /\
    steps_taken s' = 2%Z /\
    time_accumulator s' == 0 /\
    t s' == t (Simulation.new x) + 0.1.
Proof.
  intro Hfuel.
  destruct (simulate_017 K x Hfuel) as (s1 & s2 & U1 & U2 & R & N & A & T).
  exists s1, s2, (blend_all (after_update (1 * 0.17) s2)).
  repeat split; assumption.
Qed.

(** C3.  With a positive [dt], the time scale at 1 and an empty
    accumulator to start from, every call of a sequence of calls
    [simulate(frame_time)] with non-negative frame times returns with
    [alpha = time_accumulator / dt] in [[0, 1)], and the drawn position of
    every live body is the blend of its previous and its current center at
    that [alpha], which lies between the two, coordinate by coordinate. *)
Theorem alpha_is_a_convex_weight
    (K : keeps_clock) (s : Sim X) (earlier : list Q) (frame_time : Q)
    (fuel : nat) :
  0 < dt s ->
  time_scale s = 1 ->
  time_accumulator s == 0 ->
  Forall (fun ft => 0 <= ft) (earlier ++ [frame_time]) ->
  (Z.to_nat (Qceiling (0.1 / dt s)) <= fuel)%nat ->
  exists s',
    simulate_all fuel (earlier ++ [frame_time]) s = Returned s' /\
    0 <= time_accumulator s' / dt s' /\
    time_accumulator s' / dt s' < 1 /\
    forall b, In b (bodies s') ->
      drawn_center (drawn_location b)
        = mix (snap_center (previous b)) (center b)
              (time_accumulator s' / dt s') /\
      between (snap_center (previous b)) (center b)
              (drawn_center (drawn_location b)).
Proof.
  intros Hd TS A0 Hall Hfuel.
  apply Forall_app in Hall. destruct Hall as [Hearlier Hlast].
  inversion Hlast as [|? ? Hft _]; subst.
  pose proof (enough_fuel Hd) as HN.
  assert (Hs : settled (dt s) s).
  { unfold settled. repeat split; try assumption; try reflexivity; lra. }
  destruct (@simulate_all_forward X scene K _ (dt s) Hd HN
              fuel earlier s Hfuel Hearlier Hs)
    as (s1 & R1 & S1 & _).
  destruct (@simulate_forward X scene K _ (dt s) Hd HN
              fuel frame_time s1 Hfuel Hft S1)
    as (s' & R & (TS' & D' & Lo & Hi) & (bs & B) & _).
  exists s'. rewrite simulate_all_app, R1.
  assert (L0 : 0 <= time_accumulator s' / dt s').
  { rewrite D'. apply Qle_shift_div_l; [exact Hd | lra]. }
  assert (L1 : time_accumulator s' / dt s' < 1).
  { rewrite D'. apply Qlt_shift_div_r; [exact Hd | lra]. }
  split; [exact R|]. split; [exact L0|]. split; [exact L1|].
  intros b Hb. rewrite B in Hb. apply in_map_iff in Hb.
  destruct Hb as (b0 & <- & _). cbn [blend_state drawn_location drawn_center
    previous center].
  split; [reflexivity|]. apply mix_between; lra.
Qed.


End StepperClaims.

(** ** The abstract base class *)

(** C7.  On a class that inherits the abstract [update_state], the loop of
    [simulate] throws "Override this" in its first iteration, whatever the
    state it is entered in, and leaves that state as it found it.  A call
    from an empty accumulator at time scale 1 therefore throws as soon as
    the clamped frame time reaches [dt]: no body is advanced and [t],
    [steps_taken] and the scene fields are untouched, but the call is not
    without effect, since the clamped frame time added before the loop
    stays in [time_accumulator].  A call that does not reach the loop
    returns. *)
Theorem missing_override_throws
    (X : Type) (s : Sim X) (frame_time : Q) (fuel : nat) :
  (dt s <= Math_abs (time_accumulator s) ->
   substeps (scene := not_overridden X) (S fuel) frame_time s
   = Threw "Override this" s) /\
  (time_accumulator s == 0 -> time_scale s == 1 -> 0 < dt s ->
   (dt s <= Math_abs (Math_min frame_time 0.1) ->
    exists s',
      simulate (scene := not_overridden X) (S fuel) frame_time s
      = Threw "Override this" s' /\
      time_accumulator s' == Math_min frame_time 0.1 /\
      ~ time_accumulator s' == time_accumulator s /\
      bodies s' = bodies s /\ t s' = t s /\
      steps_taken s' = steps_taken s /\ self s' = self s /\
      dt s' = dt s /\ time_scale s' = time_scale s) /\
   (Math_abs (Math_min frame_time 0.1) < dt s ->
    exists s',
      simulate (scene := not_overridden X) fuel frame_time s = Returned s' /\
      t s' = t s /\ steps_taken s' = steps_taken s)).
Proof.
  split.
  - intro H.
    apply (@substeps_throw X (not_overridden X) fuel frame_time s s);
      [exact H | reflexivity].
  - intros A0 S1 Hd.
    assert (E : time_scale s * frame_time == frame_time) by (rewrite S1; ring).
    assert (M : Math_min (time_scale s * frame_time) 0.1
                == Math_min frame_time 0.1).
    { unfold Math_min. rewrite E. reflexivity. }
    set (s0 := accumulate (time_scale s * frame_time) s).
    assert (A : time_accumulator s0 == Math_min frame_time 0.1).
    { unfold s0. sim_fields. rewrite M. lra. }
    split; intro H.
    + exists s0. split.
      * unfold simulate. fold s0.
        rewrite (@substeps_throw X (not_overridden X) fuel _ s0 s0
                   "Override this"); [reflexivity | | reflexivity].
        unfold Math_abs in *. rewrite A. exact H.
      * split; [exact A|]. split.
        -- intro C. rewrite A0 in C. rewrite A in C.
           unfold Math_abs in H. rewrite C in H.
           change (Qabs 0) with 0 in H. lra.
        -- unfold s0. sim_fields. repeat split.
    + exists (blend_all s0). split.
      * unfold simulate. fold s0. rewrite substeps_idle; [reflexivity|].
        unfold Math_abs in *. rewrite A. exact H.
      * split; reflexivity.
Qed.

(** ** The rain pool of the second revision *)

Module TotoroFacts.

Import TotoroScene.

Section Pool.

Variable Math_random : nat -> Q.

Abbreviation replenish := (TotoroScene.replenish Math_random).
Abbreviation spawn := (TotoroScene.spawn Math_random).
Abbreviation update_state := (TotoroScene.update_state Math_random).
Abbreviation spawn_position := (TotoroScene.spawn_position Math_random).

(** The bodies the forces of one step act on: the live list after the
    replenish loop. *)
Definition replenished (d : Q) (s : Sim Fields) : list Body :=
  bodies (replenish (rain_count (self s)) (set_self (tick d (self s)) s)).

(** The bodies the replenish loop of one step has appended. *)
Definition spawned (d : Q) (s : Sim Fields) : list Body :=
  skipn (length (bodies s)) (replenished d s).

(** How many bodies the filter of one step removes. *)
Definition retired (d : Q) (s : Sim Fields) : nat :=
  length (replenished d s) - length (bodies (update_state d s)).

(** The drop the [k]-th [push] of a run of the loop builds, when [n] draws
    were made before the loop and the target on entry is [rc]. *)
Definition drop (rc jump_rc n k : nat) : Body :=
  emplace sphere (if Nat.eqb rc jump_rc then rainBright else rain)
    (Vec3 0.05 0.05 0.05)
    (spawn_position (n + 4 * k)) spawn_velocity
    (Math_random (n + 4 * k + 3)).

Lemma replenish_clock (fuel : nat) (s : Sim Fields) :
  time_accumulator (replenish fuel s) = time_accumulator s /\
  time_scale (replenish fuel s) = time_scale s /\
  t (replenish fuel s) = t s /\
  dt (replenish fuel s) = dt s /\
  steps_taken (replenish fuel s) = steps_taken s.
Proof.
  revert s. induction fuel as [|fuel IH]; intro s; simpl.
  - repeat split.
  - destruct (Nat.ltb _ _); [|repeat split].
    destruct (IH (spawn s)) as (A & B & C & D & E).
    rewrite A, B, C, D, E. repeat split.
Qed.

(** The loop changes neither the target nor any other scene field but the
    count of draws. *)
Lemma replenish_fields (fuel : nat) (s : Sim Fields) :
  rain_count (self (replenish fuel s)) = rain_count (self s) /\
  jump_rain_count (self (replenish fuel s)) = jump_rain_count (self s) /\
  normal_rain_count (self (replenish fuel s)) = normal_rain_count (self s).
Proof.
  revert s. induction fuel as [|fuel IH]; intro s; simpl.
  - repeat split.
  - destruct (Nat.ltb _ _); [|repeat split].
    destruct (IH (spawn s)) as (A & B & C).
    rewrite A, B, C. repeat split.
Qed.

(** The loop appends the drops [0 .. m-1], where [m] is the deficit if the
    fuel allows it. *)
Lemma replenish_appends (fuel : nat) :
  forall s,
    bodies (replenish fuel s)
    = bodies s ++
      map (drop (rain_count (self s)) (jump_rain_count (self s))
                (random_draws (self s)))
          (seq 0 (Nat.min fuel (rain_count (self s) - length (bodies s)))).
Proof.
  induction fuel as [|fuel IH]; intro s.
  - simpl. rewrite app_nil_r. reflexivity.
  - simpl replenish. destruct (Nat.ltb _ _) eqn:E.
    + apply Nat.ltb_lt in E. rewrite IH.
      cbn [TotoroScene.spawn bodies self set_self set_bodies set_pool
           rain_count jump_rain_count random_draws].
      rewrite length_app. cbn [length].
      replace (rain_count (self s) - (length (bodies s) + 1))%nat
        with (rain_count (self s) - length (bodies s) - 1)%nat by lia.
      destruct (rain_count (self s) - length (bodies s))%nat as [|m] eqn:M;
        [lia|].
      replace (Nat.min (S fuel) (S m)) with (S (Nat.min fuel m)) by lia.
      replace (S m - 1)%nat with m by lia.
      cbn [seq map]. rewrite <- app_assoc. cbn [app]. f_equal. f_equal.
      * unfold drop. rewrite Nat.mul_0_r, !Nat.add_0_r. reflexivity.
      * rewrite <- seq_shift, map_map. apply map_ext. intro k.
        unfold drop. f_equal; [f_equal; lia | f_equal; lia].
    + apply Nat.ltb_ge in E.
      replace (rain_count (self s) - length (bodies s))%nat with 0%nat by lia.
      rewrite Nat.min_0_r. simpl. rewrite app_nil_r. reflexivity.
Qed.

(** After the loop of one step the live list is the old one followed by
    exactly the deficit of new drops. *)
Lemma replenished_eq (d : Q) (s : Sim Fields) :
  replenished d s
  = bodies s ++
    map (drop (rain_count (self s)) (jump_rain_count (self s))
              (random_draws (self s)))
        (seq 0 (rain_count (self s) - length (bodies s))).
Proof.
  unfold replenished. rewrite replenish_appends.
  cbn [bodies self set_self tick set_pool rain_count jump_rain_count
       random_draws].
  rewrite Nat.min_r by lia. reflexivity.
Qed.

Lemma spawned_eq (d : Q) (s : Sim Fields) :
  spawned d s
  = map (drop (rain_count (self s)) (jump_rain_count (self s))
              (random_draws (self s)))
        (seq 0 (rain_count (self s) - length (bodies s))).
Proof.
  unfold spawned. rewrite replenished_eq.
  rewrite skipn_app, skipn_all, Nat.sub_diag. reflexivity.
Qed.

(** The bodies a step leaves: gravity, then the filter, then the floor. *)
Lemma update_state_bodies (d : Q) (s : Sim Fields) :
  bodies (update_state d s) = move_bodies d (replenished d s).
Proof. reflexivity. Qed.

Lemma update_state_clock : keeps_clock (scene := TotoroScene.scene Math_random).
Proof.
  intros d s. exists (update_state d s). split; [reflexivity|].
  unfold TotoroScene.update_state.
  cbn [time_accumulator time_scale t dt steps_taken set_self set_bodies].
  destruct (replenish_clock (rain_count (self (set_self (tick d (self s)) s)))
              (set_self (tick d (self s)) s)) as (A & B & C & D & E).
  rewrite A, B, C, D, E. repeat split.
Qed.

(** The velocity of a new drop: straight down at 1.3. *)
Lemma spawn_velocity_down :
  at0 spawn_velocity == 0 /\ at1 spawn_velocity == -1.3 /\
  at2 spawn_velocity == 0.
Proof. repeat split; vm_compute; reflexivity. Qed.

(** The box [vec3(0, 10, 0).randomized(40)] ranges over. *)
Definition in_spawn_box (p : vec3) : Prop :=
  (-20 <= at0 p /\ at0 p < 20) /\
  (-10 <= at1 p /\ at1 p < 30) /\
  (-20 <= at2 p /\ at2 p < 20).

(** What [Math.random] promises. *)
Definition unit_range (r : nat -> Q) : Prop :=
  forall n, 0 <= r n /\ r n < 1.

Lemma spawn_position_in_box (n : nat) :
  unit_range Math_random -> in_spawn_box (spawn_position n).
Proof.
  intro U. unfold in_spawn_box, TotoroScene.spawn_position, randomized.
  cbn [at0 at1 at2].
  pose proof (U n). pose proof (U (n + 1)%nat). pose proof (U (n + 2)%nat).
  repeat split; lra.
Qed.

Lemma floor_response_center (b : Body) :
  floor_response b = b \/
  (at0 (center (floor_response b)) = at0 (center b) /\
   at1 (center (floor_response b)) = 0.5 /\
   at2 (center (floor_response b)) = at2 (center b)).
Proof.
  unfold floor_response. destruct (_ && _); [right | left; reflexivity].
  repeat split.
Qed.

Lemma floor_response_in_box (b : Body) :
  in_spawn_box (center b) -> in_spawn_box (center (floor_response b)).
Proof.
  intro B. destruct (floor_response_center b) as [E|(E0 & E1 & E2)].
  - rewrite E. exact B.
  - unfold in_spawn_box in *. rewrite E0, E1, E2.
    repeat split; try lra; apply B.
Qed.

(** A new drop still falls after gravity, so the filter keeps it. *)
Lemma drop_survives (d : Q) (rc jump_rc n k : nat) :
  0 <= d -> survives (gravity d (drop rc jump_rc n k)) = true.
Proof.
  intro Hd. unfold survives. apply orb_true_iff. left. apply leb_true.
  cbn [gravity set_velocity1 linear_velocity at1 drop emplace].
  destruct spawn_velocity_down as (_ & V & _). rewrite V. lra.
Qed.

Lemma filter_length_le {A : Type} (f : A -> bool) (l : list A) :
  (length (filter f l) <= length l)%nat.
Proof.
  induction l as [|a l IH]; simpl; [lia|]. destruct (f a); simpl; lia.
Qed.

Lemma filter_all {A : Type} (f : A -> bool) (l : list A) :
  (forall a, In a l -> f a = true) -> filter f l = l.
Proof.
  induction l as [|a l IH]; intro H; simpl; [reflexivity|].
  rewrite (H a (or_introl eq_refl)). f_equal. apply IH.
  intros x Hx. apply H. right. exact Hx.
Qed.

(** C4.  In a fixed step of [TotoroScene], a body that reaches the floor
    test below the threshold 0.5 with a negative vertical velocity leaves
    the step with that velocity negated and scaled by 0.2 (the sign flips,
    the magnitude strictly decreases) and with its height set to exactly
    0.5; the other coordinates are untouched.  A body at height 0.4 moving
    down at 2.0 ends at height 0.5 with vertical velocity +0.4. *)
Theorem floor_bounce (d : Q) (s : Sim Fields) (b : Body) :
  In b (filter survives (map (gravity d) (replenished d s))) ->
  at1 (center b) < 0.5 ->
  at1 (linear_velocity b) < 0 ->
  In (floor_response b) (bodies (update_state d s)) /\
  at1 (linear_velocity (floor_response b))
    == - (0.2 * at1 (linear_velocity b)) /\
  0 < at1 (linear_velocity (floor_response b)) /\
  Qabs (at1 (linear_velocity (floor_response b)))
    < Qabs (at1 (linear_velocity b)) /\
  at1 (center (floor_response b)) = 0.5 /\
  at0 (center (floor_response b)) = at0 (center b) /\
  at2 (center (floor_response b)) = at2 (center b) /\
  at0 (linear_velocity (floor_response b)) = at0 (linear_velocity b) /\
  at2 (linear_velocity (floor_response b)) = at2 (linear_velocity b) /\
  (at1 (center b) == 0.4 -> at1 (linear_velocity b) == -2.0 ->
   at1 (center (floor_response b)) == 0.5 /\
   at1 (linear_velocity (floor_response b)) == 0.4).
Proof.
  intros Hin Hc Hv.
  assert (E : floor_response b
              = set_center1 0.5
                  (set_velocity1 (at1 (linear_velocity b) * -0.2) b)).
  { unfold floor_response.
    rewrite (proj2 (ltb_true _ _) Hc), (proj2 (ltb_true _ _) Hv).
    reflexivity. }
  split.
  { rewrite update_state_bodies. unfold move_bodies.
    apply in_map. exact Hin. }
  rewrite E. cbn [set_center1 set_velocity1 linear_velocity center at0 at1 at2].
  assert (P : 0 < at1 (linear_velocity b) * -0.2) by lra.
  split; [lra|]. split; [exact P|]. split.
  { rewrite (Qabs_pos _ (Qlt_le_weak _ _ P)).
    rewrite (Qabs_neg _ (Qlt_le_weak _ _ Hv)). lra. }
  do 5 (split; [reflexivity|]).
  intros _ V2. split; [reflexivity | lra].
Qed.

(** C5 (amended).  In one call of [update_state] the replenish loop appends
    exactly the deficit of drops (target on entry minus live count, nothing
    when there is a surplus), each placed inside the spawn box.  If the
    filter of that step removes nothing, the live count after the step is
    the larger of the count and the target on entry: it equals the target
    when the step starts with at most that many bodies, and a surplus (as
    after a jump burst, when the target has dropped back) stays.  A step
    that starts from no bodies ends with exactly the target number of
    bodies, all inside the spawn box. *)
Theorem population_after_step (d : Q) (s : Sim Fields) :
  unit_range Math_random ->
  0 <= d ->
  replenished d s = bodies s ++ spawned d s /\
  length (spawned d s) = (rain_count (self s) - length (bodies s))%nat /\
  (forall b, In b (spawned d s) -> in_spawn_box (center b)) /\
  (retired d s = 0%nat ->
   length (bodies (update_state d s))
   = Nat.max (length (bodies s)) (rain_count (self s))) /\
  (bodies s = [] ->
   length (bodies (update_state d s)) = rain_count (self s) /\
   forall b, In b (bodies (update_state d s)) -> in_spawn_box (center b)).
Proof.
  intros U Hd.
  assert (L : length (spawned d s)
              = (rain_count (self s) - length (bodies s))%nat).
  { rewrite spawned_eq, length_map, length_seq. reflexivity. }
  assert (R : replenished d s = bodies s ++ spawned d s).
  { rewrite spawned_eq. apply replenished_eq. }
  assert (B : forall b, In b (spawned d s) -> in_spawn_box (center b)).
  { intros b Hb. rewrite spawned_eq in Hb. apply in_map_iff in Hb.
    destruct Hb as (k & <- & _). apply spawn_position_in_box. exact U. }
  split; [exact R|]. split; [exact L|]. split; [exact B|]. split.
  - unfold retired. rewrite update_state_bodies. unfold move_bodies.
    rewrite length_map.
    pose proof (filter_length_le survives (map (gravity d) (replenished d s)))
      as F.
    rewrite length_map in F. intro Z.
    assert (length (filter survives (map (gravity d) (replenished d s)))
            = length (replenished d s)) as -> by lia.
    rewrite R, length_app, L. lia.
  - intro Empty. rewrite update_state_bodies. unfold move_bodies.
    assert (S0 : replenished d s = spawned d s)
      by (rewrite R, Empty; reflexivity).
    rewrite S0.
    rewrite filter_all.
    + rewrite !length_map, L, Empty. simpl. split; [lia|].
      intros b Hb. apply in_map_iff in Hb. destruct Hb as (b1 & <- & Hb1).
      apply in_map_iff in Hb1. destruct Hb1 as (b0 & <- & Hb0).
      apply floor_response_in_box. apply (B b0 Hb0).
    + intros b Hb. apply in_map_iff in Hb. destruct Hb as (b0 & <- & Hb0).
      rewrite spawned_eq in Hb0. apply in_map_iff in Hb0.
      destruct Hb0 as (k & <- & _). apply drop_survives. exact Hd.
Qed.

Lemma norm_gt_true (v : vec3) (c : Q) :
  norm_gt v c = true <-> c < 0 \/ c * c < dot v v.
Proof.
  unfold norm_gt. rewrite orb_true_iff, !ltb_true. reflexivity.
Qed.

Lemma norm_lt_true (v : vec3) (c : Q) :
  norm_lt v c = true <-> 0 < c /\ dot v v < c * c.
Proof.
  unfold norm_lt. rewrite andb_true_iff, !ltb_true. reflexivity.
Qed.

(** The filter of the second revision, spelled out. *)
Lemma survives_iff (b : Body) :
  survives b = true <->
  at1 (linear_velocity b) <= 0
  \/ 1.2 * 1.2 < dot (linear_velocity b) (linear_velocity b).
Proof.
  unfold survives. rewrite orb_true_iff, leb_true, norm_gt_true.
  split; intros [H|H]; try (left; exact H); right.
  - destruct H as [H|H]; [lra | exact H].
  - right. exact H.
Qed.

(** The floor response lets a rising body be. *)
Lemma floor_response_rising (b : Body) :
  0 <= at1 (linear_velocity b) -> floor_response b = b.
Proof.
  intro H. unfold floor_response.
  rewrite (proj2 (ltb_false _ _) H), andb_false_r. reflexivity.
Qed.

(** C8 (amended).  Every drop the replenish loop of [TotoroScene] appends
    receives the same initial velocity [vec3(0, -1, 0).normalized()
    .times(1.3)], which is (0, -1.3, 0): the unit down vector, normalized
    and scaled to the speed constant 1.3, with no random jitter (the draws
    only place the drop and set its angular velocity).  Its magnitude is
    exactly 1.3 and its vertical component is negative. *)
Theorem spawn_velocity_is_fixed (d : Q) (s : Sim Fields) (b : Body) :
  In b (spawned d s) ->
  linear_velocity b = spawn_velocity /\
  veq (linear_velocity b) (Vec3 0 (-1.3) 0) /\
  dot (linear_velocity b) (linear_velocity b) == 1.3 * 1.3 /\
  norm (linear_velocity b) == 1.3 /\
  at1 (linear_velocity b) < 0.
Proof.
  intro Hb. rewrite spawned_eq in Hb. apply in_map_iff in Hb.
  destruct Hb as (k & <- & _).
  cbn [drop emplace linear_velocity].
  split; [reflexivity|].
  repeat split; vm_compute; reflexivity.
Qed.

(** C10 (amended).  In the fixed step of [TotoroScene] the filter runs
    after gravity and before the floor response, and it keeps a body if and
    only if its vertical velocity is at most 0 or its speed exceeds 1.2.
    So a body that moves upward after gravity is removed in that step when
    its speed is at most 1.2, and is kept, untouched by the floor response,
    when its speed exceeds 1.2.  A body the floor response bounces is still
    live, and moving upward, at the end of the step of the bounce. *)
Theorem filter_between_gravity_and_floor (d : Q) (s : Sim Fields) :
  bodies (update_state d s)
  = map floor_response (filter survives (map (gravity d) (replenished d s)))
  /\
  (forall b,
     survives b = true <->
     at1 (linear_velocity b) <= 0
     \/ 1.2 * 1.2 < dot (linear_velocity b) (linear_velocity b)) /\
  (forall b,
     In b (map (gravity d) (replenished d s)) ->
     0 < at1 (linear_velocity b) ->
     dot (linear_velocity b) (linear_velocity b) <= 1.2 * 1.2 ->
     survives b = false) /\
  (forall b,
     In b (map (gravity d) (replenished d s)) ->
     0 < at1 (linear_velocity b) ->
     1.2 * 1.2 < dot (linear_velocity b) (linear_velocity b) ->
     In b (bodies (update_state d s))) /\
  (forall b,
     In b (filter survives (map (gravity d) (replenished d s))) ->
     at1 (center b) < 0.5 ->
     at1 (linear_velocity b) < 0 ->
     In (floor_response b) (bodies (update_state d s)) /\
     0 < at1 (linear_velocity (floor_response b))).
Proof.
  split; [apply update_state_bodies|].
  split; [apply survives_iff|].
  split; [|split].
  - intros b _ Up Slow. destruct (survives b) eqn:E; [|reflexivity].
    apply survives_iff in E. destruct E; lra.
  - intros b Hb Up Fast. rewrite update_state_bodies. unfold move_bodies.
    rewrite <- (floor_response_rising b) by lra.
    apply in_map. apply filter_In. split; [exact Hb|].
    apply survives_iff. right. exact Fast.
  - intros b Hb Hc Hv. split.
    + rewrite update_state_bodies. unfold move_bodies.
      apply in_map. exact Hb.
    + unfold floor_response.
      rewrite (proj2 (ltb_true _ _) Hc), (proj2 (ltb_true _ _) Hv).
      cbn [andb set_center1 set_velocity1 linear_velocity at1]. lra.
Qed.

(** One iteration of the loop of [simulate] in forward playback:
    [update_state(dt)], then the advance of every body and the
    bookkeeping. *)
Definition substep (s : Sim Fields) : Sim Fields :=
  after_update 1 (update_state (dt s) s).

(** The life of one body through one iteration: gravity, the filter, the
    floor response, the advance. *)
Definition follow (d : Q) (b : Body) : option Body :=
  let g := gravity d b in
  if survives g then Some (advance d (floor_response g)) else None.

Fixpoint follow_n (n : nat) (d : Q) (b : Body) : option Body :=
  match n with
  | O => Some b
  | S n' =>
      match follow d b with
      | Some b' => follow_n n' d b'
      | None => None
      end
  end.

Lemma substep_dt (s : Sim Fields) : dt (substep s) = dt s.
Proof.
  unfold substep. cbn [after_update dt].
  destruct (update_state_clock (dt s) s) as (s' & E & _ & _ & _ & D & _).
  injection E as <-. exact D.
Qed.

Lemma follow_substep (s : Sim Fields) (b b' : Body) :
  In b (replenished (dt s) s) ->
  follow (dt s) b = Some b' ->
  In b' (bodies (substep s)).
Proof.
  intros Hb F. unfold follow in F.
  destruct (survives (gravity (dt s) b)) eqn:S; [|discriminate].
  injection F as <-.
  unfold substep. cbn [after_update bodies].
  destruct (update_state_clock (dt s) s) as (s' & E & _ & _ & _ & D & _).
  injection E as E. rewrite <- E in D. rewrite D.
  apply in_map. rewrite update_state_bodies. unfold move_bodies.
  apply in_map. apply filter_In. split; [|exact S].
  apply in_map. exact Hb.
Qed.

Lemma live_replenished (d : Q) (s : Sim Fields) (b : Body) :
  In b (bodies s) -> In b (replenished d s).
Proof.
  intro H. rewrite replenished_eq. apply in_or_app. left. exact H.
Qed.

(** A body that [follow] carries through [n] iterations is live after
    [n] iterations of the loop. *)
Lemma follow_n_substeps (n : nat) :
  forall s b b',
    In b (bodies s) ->
    follow_n n (dt s) b = Some b' ->
    In b' (bodies (Nat.iter n substep s)).
Proof.
  induction n as [|n IH]; intros s b b' Hb F.
  - simpl in *. injection F as <-. exact Hb.
  - rewrite Nat.iter_succ_r. cbn [follow_n] in F.
    destruct (follow (dt s) b) as [b1|] eqn:F1; [|discriminate].
    apply IH with (b := b1).
    + apply follow_substep with (b := b); [|exact F1].
      apply live_replenished. exact Hb.
    + rewrite substep_dt. exact F.
Qed.

(** The same for a body that is only spawned in the first of the
    iterations. *)
Lemma follow_n_from_spawn (n : nat) (s : Sim Fields) (b b' : Body) :
  In b (replenished (dt s) s) ->
  follow_n (S n) (dt s) b = Some b' ->
  In b' (bodies (Nat.iter (S n) substep s)).
Proof.
  intros Hb F. cbn [follow_n] in F.
  destruct (follow (dt s) b) as [b1|] eqn:F1; [|discriminate].
  rewrite Nat.iter_succ_r.
  apply follow_n_substeps with (b := b1).
  - apply follow_substep with (b := b); assumption.
  - rewrite substep_dt. exact F.
Qed.

End Pool.

End TotoroFacts.

(** ** Retirement in the two revisions *)

Lemma hd_In {A : Type} (a : A) (l : list A) : l <> [] -> In (hd a l) l.
Proof.
  destruct l as [|x l]; intro H; [congruence | left; reflexivity].
Qed.

(** First revision: the filter is the last statement that touches the
    bodies. *)
Lemma update_state1_bodies (rnd : nat -> Q) (d : Q)
    (s : Sim TotoroScene1.Fields) :
  bodies (TotoroScene1.update_state rnd d s)
  = filter TotoroScene1.survives
      (map (TotoroScene1.gravity_and_floor d)
         (bodies (TotoroScene1.replenish rnd
                    (TotoroScene1.rain_count (self s))
                    (set_self (TotoroScene1.tick d (self s)) s)))).
Proof. reflexivity. Qed.

(** C6 (amended).  In the first revision of [TotoroScene.update_state] the
    filter [center.norm() < 50 && linear_velocity.norm() > 3] is the last
    statement that touches the bodies, so every body live after the call is
    closer than 50 to the origin and faster than 3.  In the second revision
    the filter is [linear_velocity[1] <= 0 || linear_velocity.norm() > 1.2]:
    there is no bound on the distance, a falling body is kept at any speed,
    and the filter runs before the floor response, so every body live after
    the call is the floor response of a body that passed that test. *)
Theorem retirement_by_revision (rnd : nat -> Q) (d : Q)
    (s1 : Sim TotoroScene1.Fields) (s2 : Sim TotoroScene.Fields)
    (b1 b2 : Body) :
  In b1 (bodies (TotoroScene1.update_state rnd d s1)) ->
  In b2 (bodies (TotoroScene.update_state rnd d s2)) ->
  (dot (center b1) (center b1) < 50 * 50 /\
   3 * 3 < dot (linear_velocity b1) (linear_velocity b1)) /\
  exists b0,
    In b0 (map (TotoroScene.gravity d) (TotoroFacts.replenished rnd d s2)) /\
    (at1 (linear_velocity b0) <= 0
     \/ 1.2 * 1.2 < dot (linear_velocity b0) (linear_velocity b0)) /\
    b2 = TotoroScene.floor_response b0.
Proof.
  intros H1 H2. split.
  - rewrite update_state1_bodies in H1. apply filter_In in H1.
    destruct H1 as [_ S]. unfold TotoroScene1.survives in S.
    apply andb_true_iff in S. destruct S as [Near Fast].
    apply TotoroFacts.norm_lt_true in Near.
    apply TotoroFacts.norm_gt_true in Fast.
    split; [apply Near|]. destruct Fast as [F|F]; [lra | exact F].
  - rewrite TotoroFacts.update_state_bodies in H2.
    unfold TotoroScene.move_bodies in H2.
    apply in_map_iff in H2. destruct H2 as (b0 & E & Hb0).
    apply filter_In in Hb0. destruct Hb0 as [Hin S].
    exists b0. split; [exact Hin|]. split; [|symmetry; exact E].
    apply TotoroFacts.survives_iff. exact S.
Qed.

(** ** Concrete runs *)

(** Three random sources: every draw is 0, 0.5 or 0.99. *)
Definition low : nat -> Q := fun _ => 0.
Definition midway : nat -> Q := fun _ => 0.5.
Definition high : nat -> Q := fun _ => 0.99.

Lemma midway_unit_range : TotoroFacts.unit_range midway.
Proof. intro n. unfold midway. split; lra. Qed.

(** The scene as [totoro_jump] leaves it on landing: the target is the
    burst count. *)
Definition landed : Sim TotoroScene.Fields :=
  set_self (TotoroScene.set_pool 0 0 1000 0 TotoroScene.new_fields)
           TotoroScene.new.

(** A scene whose target population is 10. *)
Definition ten_drops : Sim TotoroScene.Fields :=
  set_self (TotoroScene.set_pool 0 0 10 0 TotoroScene.new_fields)
           TotoroScene.new.

(** A drop at height 0.4 that gravity brings to a fall of 2.0. *)
Definition low_drop : Body :=
  emplace sphere rain (Vec3 0.05 0.05 0.05)
          (Vec3 0 0.4 0) (Vec3 0 (-1.95) 0) 0.

(** A body that rises slowly. *)
Definition slow_riser : Body :=
  emplace sphere rain (Vec3 0.05 0.05 0.05)
          (Vec3 0 0.6 0) (Vec3 0 0.5 0) 0.

(** A falling body far from the origin. *)
Definition far_drop : Body :=
  emplace sphere rain (Vec3 0.05 0.05 0.05)
          (Vec3 100 5 0) (Vec3 0 (-1) 0) 0.


(** C2, as stated, fails: on a fresh scene [simulate(0.17)] runs two
    sub-steps, not three; it leaves 0 in the accumulator, not 0.02; and [t]
    has grown by 0.1, not by 0.15. *)
Lemma simulate_017_counterexample :
  exists s',
    simulate (scene := TotoroScene.scene midway) 3 0.17 TotoroScene.new
      = Returned s' /\
    steps_taken s' = 2%Z /\ steps_taken s' <> 3%Z /\
    ~ time_accumulator s' == 0.02 /\
    ~ t s' == 0.15.
Proof.
  destruct (@simulate_017 _ (TotoroScene.scene midway)
              (TotoroFacts.update_state_clock midway)
              TotoroScene.new_fields 3) as (s1 & s2 & _ & _ & R & N & A & T);
    [lia|].
  eexists. split; [exact R|].
  split; [exact N|]. split; [rewrite N; discriminate|].
  split; intro H.
  - rewrite A in H. discriminate H.
  - rewrite T in H. discriminate H.
Qed.

Lemma simulate_017_runs_two_substeps_witness :
  exists s',
    simulate (scene := TotoroScene.scene midway) 2 0.17 TotoroScene.new
      = Returned s' /\
    steps_taken s' = 2%Z /\ time_accumulator s' == 0 /\ t s' == 0.1.
Proof.
  destruct (@simulate_017_runs_two_substeps _ (TotoroScene.scene midway)
              (TotoroFacts.update_state_clock midway)
              TotoroScene.new_fields 2 (le_n 2))
    as (s1 & s2 & s' & _ & _ & _ & R & N & A & T).
  exists s'. repeat split; assumption.
Defined.

Lemma alpha_is_a_convex_weight_witness :
  exists s',
    simulate_all (scene := TotoroScene.scene midway) 2
                 ([0.03; 0.2] ++ [0.04]) TotoroScene.new = Returned s' /\
    0 <= time_accumulator s' / dt s' /\
    time_accumulator s' / dt s' < 1.
Proof.
  destruct (@alpha_is_a_convex_weight _ (TotoroScene.scene midway)
              (TotoroFacts.update_state_clock midway)
              TotoroScene.new [0.03; 0.2] 0.04 2)
    as (s' & R & L & H & _).
  - reflexivity.
  - reflexivity.
  - reflexivity.
  - repeat constructor; lra.
  - vm_compute. lia.
  - exists s'. repeat split; assumption.
Defined.


(** C7, as stated, fails: the call that throws has changed the state.  On
    the base class [simulate(0.17)] throws and leaves 0.1 in the
    accumulator, which was empty. *)
Lemma thrown_call_changes_the_accumulator :
  exists s',
    simulate (scene := Base) 1 0.17 (Simulation.new tt)
    = Threw "Override this" s' /\
    time_accumulator s' == 0.1 /\
    ~ time_accumulator s' == time_accumulator (Simulation.new tt).
Proof.
  exists (accumulate (1 * 0.17) (Simulation.new tt)).
  split; [reflexivity|]. split; [reflexivity|].
  intro H. vm_compute in H. discriminate H.
Qed.

Lemma missing_override_throws_witness :
  exists s',
    simulate (scene := not_overridden TotoroScene.Fields) 1 0.17
             TotoroScene.new = Threw "Override this" s' /\
    time_accumulator s' == Math_min 0.17 0.1 /\
    steps_taken s' = steps_taken TotoroScene.new.
Proof.
  destruct (proj2 (missing_override_throws TotoroScene.new 0.17 0))
    as (Throws & _); [reflexivity | reflexivity | reflexivity |].
  destruct Throws as (s' & R & A & _ & _ & _ & N & _);
    [vm_compute; discriminate |].
  exists s'. split; [exact R|]. split; [exact A | exact N].
Defined.

(** A scene whose only body is [low_drop] and whose target is 1. *)
Definition one_low_drop : Sim TotoroScene.Fields :=
  set_bodies [low_drop]
    (set_self (TotoroScene.set_pool 0 0 1 0 TotoroScene.new_fields)
              TotoroScene.new).

Lemma floor_bounce_witness :
  let b := TotoroScene.gravity (1 / 20) low_drop in
  at1 (center b) == 0.4 /\ at1 (linear_velocity b) == -2.0 /\
  In (TotoroScene.floor_response b)
     (bodies (TotoroScene.update_state midway (1 / 20) one_low_drop)) /\
  at1 (center (TotoroScene.floor_response b)) == 0.5 /\
  at1 (linear_velocity (TotoroScene.floor_response b)) == 0.4.
Proof.
  intro b.
  assert (C : at1 (center b) == 0.4) by reflexivity.
  assert (V : at1 (linear_velocity b) == -2.0) by reflexivity.
  assert (I : In b (filter TotoroScene.survives
                      (map (TotoroScene.gravity (1 / 20))
                         (TotoroFacts.replenished midway (1 / 20)
                            one_low_drop)))).
  { vm_compute. left. reflexivity. }
  assert (H1 : at1 (center b) < 0.5) by reflexivity.
  assert (H2 : at1 (linear_velocity b) < 0) by reflexivity.
  destruct (@TotoroFacts.floor_bounce midway (1 / 20) one_low_drop b I H1 H2)
    as (I' & _ & _ & _ & _ & _ & _ & _ & _ & Scenario).
  destruct (Scenario C V) as [C' V'].
  repeat split; assumption.
Defined.

(** C5, as stated, fails after a burst.  On landing the target is 1000; the
    next step spawns 1000 drops and puts the target back to 500; the step
    after that retires nothing and ends with 1000 live bodies, twice the
    target it started and ended with. *)
Lemma population_counterexample :
  let burst := TotoroFacts.substep midway landed in
  let after := TotoroScene.update_state midway (1 / 20) burst in
  length (bodies burst) = 1000%nat /\
  TotoroScene.rain_count (self burst) = 500%nat /\
  TotoroFacts.retired midway (1 / 20) burst = 0%nat /\
  TotoroScene.rain_count (self after) = 500%nat /\
  length (bodies after) = 1000%nat /\
  length (bodies after) <> TotoroScene.rain_count (self burst).
Proof.
  vm_compute. repeat split; discriminate.
Qed.

Lemma population_after_step_witness :
  length (bodies (TotoroScene.update_state midway (1 / 20) ten_drops))
    = 10%nat /\
  forall b,
    In b (bodies (TotoroScene.update_state midway (1 / 20) ten_drops)) ->
    TotoroFacts.in_spawn_box (center b).
Proof.
  destruct (@TotoroFacts.population_after_step midway (1 / 20) ten_drops
              midway_unit_range)
    as (_ & _ & _ & _ & Empty).
  - vm_compute. discriminate.
  - apply Empty. reflexivity.
Defined.

(** The first revision with a target population of 10. *)
Definition ten_drops1 : Sim TotoroScene1.Fields :=
  set_self (TotoroScene1.set_pool 0 0 10 0 rain TotoroScene1.new_fields)
           TotoroScene1.new.

(** C6, as stated, fails on the second revision.  After the first step of a
    fresh scene whose drops were all placed below the floor, all 500 bodies
    are live although each one rises at 0.27, below the threshold 1.2, and
    so fails the very test of the filter; and the test keeps a falling body
    that is 100 away from the origin. *)
Lemma retirement_counterexample :
  let s' := TotoroScene.update_state low (1 / 20) TotoroScene.new in
  length (bodies s') = 500%nat /\
  forallb (fun b => negb (TotoroScene.survives b)
                    && ltb 0 (at1 (linear_velocity b))
                    && ltb (dot (linear_velocity b) (linear_velocity b))
                           (1.2 * 1.2))
          (bodies s') = true /\
  TotoroScene.survives far_drop = true /\
  ltb (50 * 50) (dot (center far_drop) (center far_drop)) = true /\
  hd_error (bodies (TotoroScene.update_state low 0
                      (set_bodies [far_drop] TotoroScene.new)))
  = Some far_drop.
Proof.
  vm_compute. repeat split.
Qed.

Lemma retirement_by_revision_witness :
  let b1 := hd low_drop
               (bodies (TotoroScene1.update_state midway (1 / 20)
                          ten_drops1)) in
  dot (center b1) (center b1) < 50 * 50 /\
  3 * 3 < dot (linear_velocity b1) (linear_velocity b1).
Proof.
  intro b1.
  destruct (@retirement_by_revision midway (1 / 20)
              ten_drops1 ten_drops b1
              (hd low_drop
                  (bodies (TotoroScene.update_state midway (1 / 20)
                             ten_drops))))
    as (P & _).
  - apply hd_In. intro E. apply (f_equal (@length Body)) in E.
    vm_compute in E. discriminate E.
  - apply hd_In. intro E. apply (f_equal (@length Body)) in E.
    vm_compute in E. discriminate E.
  - exact P.
Defined.

(** C8, as stated, fails: the velocity of a new drop is not perturbed by
    the random source.  With every draw at 0 and with every draw at 0.99
    the 500 drops of the first step are placed differently but all receive
    the velocity (0, -1.3, 0), with no horizontal component. *)
Lemma jitter_counterexample :
  let straight b :=
    eqb (at0 (linear_velocity b)) 0 && eqb (at1 (linear_velocity b)) (-1.3)
    && eqb (at2 (linear_velocity b)) 0 in
  let drops_low := TotoroFacts.spawned low (1 / 20) TotoroScene.new in
  let drops_high := TotoroFacts.spawned high (1 / 20) TotoroScene.new in
  length drops_low = 500%nat /\ length drops_high = 500%nat /\
  forallb straight drops_low = true /\
  forallb straight drops_high = true /\
  map linear_velocity drops_low = map linear_velocity drops_high /\
  hd_error (map center drops_low) <> hd_error (map center drops_high).
Proof.
  vm_compute. repeat split. discriminate.
Qed.

Lemma spawn_velocity_is_fixed_witness :
  let b := hd low_drop (TotoroFacts.spawned midway (1 / 20) ten_drops) in
  veq (linear_velocity b) (Vec3 0 (-1.3) 0) /\ norm (linear_velocity b) == 1.3.
Proof.
  intro b.
  destruct (@TotoroFacts.spawn_velocity_is_fixed midway (1 / 20)
              ten_drops b) as (_ & V & _ & N & _).
  - apply hd_In. intro E. apply (f_equal (@length Body)) in E.
    vm_compute in E. discriminate E.
  - split; assumption.
Defined.

(** A random source whose every draw is 0.75: the drops start at height
    20. *)
Definition upper : nat -> Q := fun _ => 0.75.

(** The first drop a fresh scene spawns from [upper]. *)
Definition first_drop : Body := TotoroFacts.drop upper 500 1000 0 0.

(** The life of [first_drop] by computation: after 102 iterations it is
    below the floor threshold and falling at 6.4; the next iteration bounces
    it; after 104 iterations it is live, above the floor and rising at
    1.24. *)
Lemma first_drop_trajectory :
  match TotoroFacts.follow_n 102 (1 / 20) first_drop with
  | None => false
  | Some b =>
      ltb (at1 (center b)) 0.5 && eqb (at1 (linear_velocity b)) (-6.4)
      && match TotoroFacts.follow_n 2 (1 / 20) b with
         | None => false
         | Some b' =>
             ltb 0.5 (at1 (center b')) && eqb (at1 (linear_velocity b')) 1.24
             && ltb 1.2 (at1 (linear_velocity b'))
         end
  end = true.
Proof. vm_compute. reflexivity. Qed.

Lemma follow_n_add (n m : nat) (d : Q) (b : Body) :
  TotoroFacts.follow_n (n + m) d b =
  match TotoroFacts.follow_n n d b with
  | Some b' => TotoroFacts.follow_n m d b'
  | None => None
  end.
Proof.
  revert b. induction n as [|n IH]; intro b; simpl; [reflexivity|].
  destruct (TotoroFacts.follow d b); [apply IH | reflexivity].
Qed.

(** C10, as stated, fails: a bounced raindrop can survive and rise.  In a
    fresh scene whose draws are all 0.75 the first drop falls from height
    20, is bounced by the floor response in iteration 103 of the loop of
    [simulate], passes the filter of iteration 104 while moving upward
    (its speed 1.24 exceeds 1.2), and is then live above the floor, still
    rising. *)
Lemma bounced_drop_rises :
  exists b,
    In b (bodies (Nat.iter 104 (TotoroFacts.substep upper) TotoroScene.new)) /\
    0 < at1 (linear_velocity b) /\
    1.2 * 1.2 < dot (linear_velocity b) (linear_velocity b) /\
    0.5 < at1 (center b).
Proof.
  pose proof first_drop_trajectory as T.
  destruct (TotoroFacts.follow_n 102 (1 / 20) first_drop) as [b|] eqn:F;
    [|discriminate].
  apply andb_true_iff in T. destruct T as [_ T].
  destruct (TotoroFacts.follow_n 2 (1 / 20) b) as [b'|] eqn:F2;
    [|discriminate].
  apply andb_true_iff in T. destruct T as [T Fast].
  apply andb_true_iff in T. destruct T as [High V].
  apply ltb_true in High. apply ltb_true in Fast.
  exists b'.
  assert (F104 : TotoroFacts.follow_n 104 (1 / 20) first_drop = Some b').
  { change 104%nat with (102 + 2)%nat. rewrite follow_n_add, F. exact F2. }
  split.
  - apply (@TotoroFacts.follow_n_from_spawn upper 103 TotoroScene.new
             first_drop b').
    + rewrite TotoroFacts.replenished_eq. apply in_or_app. right.
      apply in_map_iff. exists 0%nat. split; [reflexivity|].
      apply in_seq. cbn. lia.
    + exact F104.
  - split; [lra|]. split; [|exact High].
    assert (P : 0 < at1 (linear_velocity b')) by lra.
    unfold dot.
    assert (0 <= at0 (linear_velocity b') * at0 (linear_velocity b')) by nra.
    assert (0 <= at2 (linear_velocity b') * at2 (linear_velocity b')) by nra.
    nra.
Qed.

Lemma filter_between_gravity_and_floor_witness :
  TotoroScene.survives (TotoroScene.gravity (1 / 20) slow_riser) = false.
Proof.
  destruct (@TotoroFacts.filter_between_gravity_and_floor midway (1 / 20)
              (set_bodies [slow_riser] ten_drops))
    as (_ & _ & Slow & _).
  apply Slow.
  - apply in_map. rewrite TotoroFacts.replenished_eq. left. reflexivity.
  - reflexivity.
  - vm_compute. discriminate.
Defined.

(** * The stepper on the numbers of the machine *)

Module MachineFacts.

Import Double Simulation64.

#[local] Open Scope float_scope.

(** The fields of the stepper that [simulate] itself writes or reads. *)
Definition clock {X B : Type} (s : Sim X B)
  : float * float * float * float * float :=
  (time_accumulator s, time_scale s, t s, dt s, steps_taken s).

(** The stepper fields a call returns with, if it returns. *)
Definition ended {X B : Type} (o : outcome (Sim X B))
  : option (float * float * float * float * float) :=
  match o with
  | Returned s => Some (clock s)
  | _ => None
  end.

Section Clock.

Context {X B : Type} {body : Bodies B} {scene : Scene X B}.

(** A scene class whose [update_state] returns and leaves the fields of
    the stepper alone. *)
Definition keeps_clock : Prop :=
  forall d s, exists s',
    update_state d s = Returned s' /\ clock s' = clock s.

Lemma clock_eq (s s' : Sim X B) :
  clock s' = clock s ->
  time_accumulator s' = time_accumulator s /\
  time_scale s' = time_scale s /\ t s' = t s /\ dt s' = dt s /\
  steps_taken s' = steps_taken s.
Proof. unfold clock. intro E. injection E as -> -> -> -> ->. repeat split. Qed.

(** An iteration that leaves the accumulator as it found it is followed by
    another. *)
Lemma substeps_absorbed (K : keeps_clock) (fuel : nat) :
  forall ft s,
    geb (Math_abs (time_accumulator s)) (dt s) = true ->
    (time_accumulator s - Math_sign ft * dt s)%float = time_accumulator s ->
    substeps fuel ft s = OutOfFuel.
Proof.
  induction fuel as [|fuel IH]; intros ft s G A; cbn [substeps]; rewrite G.
  - reflexivity.
  - destruct (K (dt s) s) as (s1 & U & C). rewrite U.
    apply clock_eq in C. destruct C as (Ca & _ & _ & Cd & _).
    apply IH; cbn [after_update time_accumulator dt]; rewrite Ca, Cd, A.
    + exact G.
    + exact A.
Qed.

(** X2.  A debt too large to repay.  The loop repays the accumulator one
    [dt] per iteration, and a double absorbs an addend that is small
    against it.  If, after the frame time has been added, the accumulator
    holds a step or more and subtracting [Math.sign(frame_time) * dt] does
    not change it, the call never returns: whatever the number of
    iterations allowed, the loop is still running.  A frame time of
    [-1e16] at time scale 1 does it. *)
Theorem absorbed_debt_is_never_repaid
    (K : keeps_clock) (s : Sim X B) (frame_time : float) (fuel : nat) :
  let ft := (time_scale s * frame_time)%float in
  let a := (time_accumulator s + Math_min ft 0.1)%float in
  geb (Math_abs a) (dt s) = true ->
  (a - Math_sign ft * dt s)%float = a ->
  simulate fuel frame_time s = OutOfFuel.
Proof.
  intros ft a G A. unfold simulate. fold ft.
  rewrite (substeps_absorbed K fuel ft (accumulate ft s));
    [reflexivity | exact G | exact A].
Qed.

End Clock.

Lemma quiet_keeps_clock : @keeps_clock unit Empty_set Quiet.
Proof. intros d s. exists s. split; reflexivity. Qed.

Lemma absorbed_debt_is_never_repaid_witness :
  simulate (scene := Quiet) 1000 (-1e16) (new tt) = OutOfFuel.
Proof.
  apply (absorbed_debt_is_never_repaid quiet_keeps_clock (new tt) (-1e16) 1000).
  - reflexivity.
  - reflexivity.
Defined.


Lemma blend_all_clock {X B : Type} {body : Bodies B} (s : Sim X B) :
  clock (blend_all s) = clock s.
Proof. reflexivity. Qed.

Section TwoScenes.

Context {X B X' B' : Type}.
Context {body : Bodies B} {scene : Scene X B}.
Context {body' : Bodies B'} {scene' : Scene X' B'}.
Hypothesis K : @keeps_clock X B scene.
Hypothesis K' : @keeps_clock X' B' scene'.

Lemma substeps_clock (fuel : nat) :
  forall ft (s : Sim X B) (s' : Sim X' B'),
    clock s = clock s' ->
    ended (substeps fuel ft s) = ended (substeps fuel ft s').
Proof.
  induction fuel as [|fuel IH]; intros ft s s' E;
    pose proof E as E0; unfold clock in E0;
    injection E0 as Ea Es Et Ed En;
    cbn [substeps]; rewrite Ea, Ed; destruct (geb _ _); try reflexivity.
  - cbn [ended]. rewrite E. reflexivity.
  - destruct (K (dt s') s) as (s1 & U & C).
    destruct (K' (dt s') s') as (s1' & U' & C').
    rewrite U, U'. apply IH.
    apply clock_eq in C. destruct C as (Ca & Cs & Ct & Cd & Cn).
    apply clock_eq in C'. destruct C' as (Ca' & Cs' & Ct' & Cd' & Cn').
    unfold clock. cbn [after_update time_accumulator time_scale t dt steps_taken].
    rewrite Ca, Cs, Ct, Cd, Cn, Ca', Cs', Ct', Cd', Cn', Ea, Es, Et, Ed, En.
    reflexivity.
  - cbn [ended]. rewrite E. reflexivity.
Qed.

Lemma simulate_clock (fuel : nat) (ft : float) (s : Sim X B) (s' : Sim X' B') :
  clock s = clock s' ->
  ended (simulate fuel ft s) = ended (simulate fuel ft s').
Proof.
  intro E. pose proof E as E0. unfold clock in E0.
  injection E0 as Ea Es Et Ed En.
  unfold simulate. rewrite Es.
  assert (A : clock (accumulate (time_scale s' * ft) s)
              = clock (accumulate (time_scale s' * ft) s')).
  { unfold clock, accumulate.
    cbn [set_time_accumulator time_accumulator time_scale t dt steps_taken].
    rewrite Ea, Es, Et, Ed, En. reflexivity. }
  pose proof (substeps_clock fuel (time_scale s' * ft) A) as R.
  destruct (substeps fuel _ (accumulate _ s)),
           (substeps fuel _ (accumulate _ s')); try discriminate R;
    try reflexivity.
  cbn [ended] in *. rewrite !blend_all_clock. exact R.
Qed.

(** The fields of the stepper do not depend on the scene class: two
    classes that keep the clock end every run of calls with the same
    clock, or both do not return. *)
Lemma simulate_all_clock (fuel : nat) (fts : list float) :
  forall (s : Sim X B) (s' : Sim X' B'),
    clock s = clock s' ->
    ended (simulate_all fuel fts s) = ended (simulate_all fuel fts s').
Proof.
  induction fts as [|ft fts IH]; intros s s' E; cbn [simulate_all].
  - cbn [ended]. rewrite E. reflexivity.
  - pose proof (simulate_clock fuel ft E) as R.
    destruct (simulate fuel ft s), (simulate fuel ft s');
      try discriminate R; try reflexivity.
    apply IH. cbn [ended] in R. congruence.
Qed.

End TwoScenes.


Lemma slow_down_iter {X B : Type} (n : nat) (s : Sim X B) :
  time_scale (Nat.iter n (press Slow_down_time) s)
  = Nat.iter n (fun c => c / 5) (time_scale s).
Proof.
  induction n as [|n IH]; [reflexivity|].
  cbn [Nat.iter nat_rect]. unfold press at 1.
  cbn [set_time_scale time_scale].
  fold (Nat.iter n (press (X:=X) (B:=B) Slow_down_time) s).
  rewrite IH. reflexivity.
Qed.

(** X5.  "Slow down time" can stop the clock for good.  Each press divides
    the time scale by 5; from the constructor's 1 the 463rd press
    underflows to 0 (the 462nd still leaves a positive scale), and no
    press of either key moves a scale of 0 again. *)
Theorem slow_down_can_freeze_time {X B : Type} (x : X) :
  time_scale (Nat.iter 463 (press Slow_down_time)
                (new x : Sim X B)) = 0 /\
  PrimFloat.ltb 0 (time_scale (Nat.iter 462 (press Slow_down_time)
                                (new x : Sim X B))) = true /\
  forall (keys : list TimeKey) (s : Sim X B),
    time_scale s = 0 ->
    time_scale (fold_left (fun s k => press k s) keys s) = 0.
Proof.
  rewrite !slow_down_iter. split; [vm_compute; reflexivity|].
  split; [vm_compute; reflexivity|].
  induction keys as [|k keys IH]; intros s Z; [exact Z|].
  cbn [fold_left]. apply IH.
  destruct k; cbn [press set_time_scale time_scale]; rewrite ?Z; reflexivity.
Qed.

End MachineFacts.

(** * Further properties of the stepper *)


Lemma Math_abs_lt (a b : Q) : Math_abs a < b <-> - b < a /\ a < b.
Proof. unfold Math_abs. apply Qabs_Qlt_condition. Qed.

Lemma Math_abs_ge_pos (a b : Q) : 0 <= a -> (b <= Math_abs a <-> b <= a).
Proof. intro H. rewrite (Math_abs_nonneg H). reflexivity. Qed.

(** Enough iterations to work off [a] at step size [d]. *)
Lemma enough_iterations (a d : Q) :
  0 <= a -> 0 < d ->
  a <= inject_Z (Z.of_nat (Z.to_nat (Qceiling (a / d)))) * d.
Proof.
  intros Ha Hd.
  assert (P : 0 <= a / d).
  { apply Qle_shift_div_l; [exact Hd | lra]. }
  assert (C : (0 <= Qceiling (a / d))%Z).
  { change 0%Z with (Qceiling 0). apply Qceiling_resp_le. exact P. }
  rewrite Z2Nat.id by exact C.
  pose proof (Qle_ceiling (a / d)) as L.
  assert (E : a == a / d * d) by (field; lra).
  rewrite E at 1. apply Qmult_le_compat_r; [exact L | lra].
Qed.

Section StepperExtras.

Context {X : Type} {scene : Scene X}.

(** A call whose scaled frame time is 0 and which finds less than one step
    in the accumulator does not enter the loop. *)
Lemma simulate_idle (s : Sim X) (frame_time : Q) (fuel : nat) :
  Math_abs (time_accumulator (accumulate (time_scale s * frame_time) s))
    < dt s ->
  simulate fuel frame_time s
  = Returned (blend_all (accumulate (time_scale s * frame_time) s)).
Proof.
  intro H. unfold simulate. rewrite substeps_idle; [reflexivity|exact H].
Qed.

(** A frame of forward playback returns within the iterations that work
    off the ceiling of 0.1. *)
Lemma forward_frame_returns
    (K : keeps_clock) (s : Sim X) (frame_time : Q) (fuel : nat) :
  0 < dt s ->
  0 <= time_accumulator s -> time_accumulator s < dt s ->
  0 <= time_scale s * frame_time ->
  (Z.to_nat (Qceiling (0.1 / dt s)) <= fuel)%nat ->
  exists s', simulate fuel frame_time s = Returned s'.
Proof.
  intros Hd Lo Hi Hft Hfuel.
  set (ft := time_scale s * frame_time) in *.
  pose proof (Math_min_le_l ft 0.1) as Ml.
  pose proof (Math_min_le_r ft 0.1) as Mr.
  assert (Mg : 0 <= Math_min ft 0.1) by (apply Math_min_glb; lra).
  assert (P01 : 0 <= 0.1) by lra.
  pose proof (enough_iterations P01 Hd) as HN.
  set (N := Z.to_nat (Qceiling (0.1 / dt s))) in *.
  destruct (Qlt_le_dec 0 ft) as [Pos|Zero].
  - destruct (@substeps_forward X scene K N fuel ft (accumulate ft s))
      as (s' & R & _); sim_fields; try assumption; try lra.
    exists (blend_all s'). unfold simulate. fold ft. rewrite R. reflexivity.
  - exists (blend_all (accumulate ft s)).
    apply simulate_idle. apply Math_abs_lt. sim_fields. fold ft. lra.
Qed.

(** X1.  A call of [simulate] whose scaled frame time is 0 (a frame of no
    duration, or a time scale of 0) and which finds less than one step in
    the accumulator performs no sub-step, whatever the scene class: it does
    not call [update_state] (so it returns even on the abstract base
    class), leaves [t], [steps_taken] and the scene fields as they are and
    only recomputes the blend of each body. *)
Theorem zero_frame_is_idle (s : Sim X) (frame_time : Q) (fuel : nat) :
  time_scale s * frame_time == 0 ->
  Math_abs (time_accumulator s) < dt s ->
  exists s',
    simulate fuel frame_time s = Returned s' /\
    steps_taken s' = steps_taken s /\ t s' = t s /\ self s' = self s /\
    dt s' = dt s /\ time_scale s' = time_scale s /\
    time_accumulator s' == time_accumulator s /\
    bodies s'
    = map (blend_state (time_accumulator s' / dt s)) (bodies s).
Proof.
  intros Z H.
  pose proof (Math_min_le_l (time_scale s * frame_time) 0.1) as Ml.
  assert (Mg : 0 <= Math_min (time_scale s * frame_time) 0.1)
    by (apply Math_min_glb; lra).
  apply Math_abs_lt in H.
  exists (blend_all (accumulate (time_scale s * frame_time) s)).
  split.
  - apply simulate_idle. apply Math_abs_lt. sim_fields. lra.
  - sim_fields. repeat split; try reflexivity. lra.
Qed.

(** With a sign of 0 the loop cannot make progress. *)
Lemma substeps_stall (K : keeps_clock) (fuel : nat) :
  forall ft s,
    Math_sign ft = 0 ->
    dt s <= Math_abs (time_accumulator s) ->
    substeps fuel ft s = OutOfFuel.
Proof.
  induction fuel as [|fuel IH]; intros ft s Z H.
  - simpl. rewrite (proj2 (leb_true _ _) H). reflexivity.
  - destruct (K (dt s) s) as (s1 & U & A1 & S1 & T1 & D1 & N1).
    rewrite (@substeps_step X scene fuel ft s s1 H U).
    apply IH; [exact Z|].
    sim_fields. rewrite Z, A1, D1. unfold Math_abs in *.
    assert (E : time_accumulator s - 0 * dt s == time_accumulator s) by ring.
    rewrite E. exact H.
Qed.

(** X3.  The loop of [simulate] relies on the sign of the frame time to
    repay the accumulator.  If a call arrives with a scaled frame time of 0
    while a whole step or more is owed (the accumulator is at least [dt]),
    [Math.sign] is 0, each iteration leaves the accumulator as it is, and
    the call never returns: whatever the number of iterations allowed, the
    loop is still running.  A call of [simulate] that returns leaves less
    than one step in the accumulator, since its loop has ended; the state
    takes a write to the public field [time_accumulator] or [dt] from
    outside the stepper. *)
Theorem zero_frame_with_debt_never_returns
    (K : keeps_clock) (s : Sim X) (frame_time : Q) (fuel : nat) :
  time_scale s * frame_time == 0 ->
  dt s <= time_accumulator s ->
  0 < dt s ->
  simulate fuel frame_time s = OutOfFuel.
Proof.
  intros Z H Hd. unfold simulate.
  rewrite substeps_stall; [reflexivity | exact K | | ].
  - apply Math_sign_zero. exact Z.
  - sim_fields.
    assert (Mn : Math_min (time_scale s * frame_time) 0.1 == 0).
    { rewrite <- Z. apply Math_min_small. lra. }
    rewrite Math_abs_nonneg; lra.
Qed.

End StepperExtras.

(** * Further properties of the scene *)

Module SceneFacts.

Import TotoroScene ControlPanel.

Section Script.

Variable Math_random : nat -> Q.

Abbreviation replenish := (TotoroScene.replenish Math_random).
Abbreviation update_state := (TotoroScene.update_state Math_random).
Abbreviation substep := (TotoroFacts.substep Math_random).
Abbreviation replenished := (TotoroFacts.replenished Math_random).
Abbreviation spawned := (TotoroFacts.spawned Math_random).

(** The scene fields [script] starts from in one call of [update_state]:
    the clock has ticked, the loop has drawn its random numbers and a burst
    target has been put back. *)
Definition scripted (d : Q) (s : Sim Fields) : Fields :=
  end_burst
    (self (replenish (rain_count (self s)) (set_self (tick d (self s)) s))).

Lemma update_state_self (d : Q) (s : Sim Fields) :
  self (update_state d s) = script (scripted d s).
Proof. reflexivity. Qed.

Lemma set_pool_same (f : Fields) :
  set_pool (time f) (time_diff f) (rain_count f) (random_draws f) f = f.
Proof. destruct f. reflexivity. Qed.

(** The loop only moves the count of draws. *)
Lemma replenish_self (fuel : nat) :
  forall s, exists k,
    self (replenish fuel s)
    = set_pool (time (self s)) (time_diff (self s)) (rain_count (self s))
               k (self s).
Proof.
  induction fuel as [|fuel IH]; intro s.
  - exists (random_draws (self s)). simpl. symmetry. apply set_pool_same.
  - simpl. destruct (Nat.ltb _ _).
    + destruct (IH (TotoroScene.spawn Math_random s)) as (k & E).
      exists k. rewrite E. reflexivity.
    + exists (random_draws (self s)). symmetry. apply set_pool_same.
Qed.

(** [scripted] differs from the fields on entry in the clock, the target
    and the count of draws only. *)
Lemma scripted_eq (d : Q) (s : Sim Fields) :
  exists k,
    scripted d s
    = set_pool (time (self s) + d)
        (if paused (self s) then time_diff (self s) + d
         else time_diff (self s))
        (if Nat.eqb (rain_count (self s)) (jump_rain_count (self s))
         then normal_rain_count (self s) else rain_count (self s))
        k (self s).
Proof.
  unfold scripted.
  destruct (replenish_self (rain_count (self s))
              (set_self (tick d (self s)) s)) as (k & E).
  exists k. rewrite E. unfold end_burst.
  cbn [self set_self tick set_pool rain_count jump_rain_count time time_diff
       normal_rain_count random_draws].
  destruct (Nat.eqb _ _); reflexivity.
Qed.

(** The tests of [script] that decide whether the scene is paused. *)
Definition walks_in (f : Fields) : bool :=
  ltb 40 (time f) && ltb (time f) 80 && ltb 0 (totoroPos f).

Definition turns (f : Fields) : bool :=
  leb (if walks_in f then totoroPos f + -0.03 else totoroPos f) 0
  && ltb (if walks_in f then - Math_PI / 2 else facing_angle f) 0.

Definition pauses (f : Fields) : bool :=
  if turns f then true else paused f.

(** Open [script] at the call of [totoro_jump]: three cases. *)
Ltac open_script :=
  unfold script;
  match goal with
  | |- context [if ?c then totoro_jump _ _ _ _ _ _ else _] =>
      let J := fresh "Jumps" in destruct c eqn:J
  end;
  [ unfold totoro_jump;
    match goal with
    | |- context [if ltb ?a ?b then (_, _, _, _, _) else _] =>
        let L := fresh "Lands" in destruct (ltb a b) eqn:L
    end
  | ].

Lemma script_paused (f : Fields) : paused (script f) = pauses f.
Proof. open_script; reflexivity. Qed.

Lemma pauses_of_paused (f : Fields) : paused f = true -> pauses f = true.
Proof. intro H. unfold pauses. rewrite H. destruct (turns f); reflexivity. Qed.

(** [script] without a jump under way leaves the jump fields and the
    target alone. *)
Lemma script_no_jump (f : Fields) :
  pauses f && totoroJump f = false ->
  totoroPosY (script f) = totoroPosY f /\
  totoroJump (script f) = totoroJump f /\
  totoroIsJumping (script f) = totoroIsJumping f /\
  totoroJump_start (script f) = totoroJump_start f /\
  rain_count (script f) = rain_count f.
Proof.
  intro H. unfold pauses, turns, walks_in in H. unfold script.
  cbv zeta. rewrite H. cbn. rewrite ?andb_false_r.
  repeat split.
Qed.

(** The height [totoro_jump] computes. *)
Definition jump_height (tau : Q) : Q := 2.5 * tau - 1 * tau * tau + 1.1.

(** [script] with a jump under way: Totoro is in the air, or lands. *)
Lemma script_jump (f : Fields) :
  pauses f && totoroJump f = true ->
  let start := if eqb (totoroJump_start f) 0 then time f
               else totoroJump_start f in
  let h := jump_height (time f - start) in
  (ltb h 1.1 = false ->
   totoroPosY (script f) = h /\
   totoroJump (script f) = totoroJump f /\
   totoroIsJumping (script f) = true /\
   totoroJump_start (script f) = start /\
   rain_count (script f) = rain_count f) /\
  (ltb h 1.1 = true ->
   totoroPosY (script f) = 1.1 /\
   totoroJump (script f) = false /\
   totoroIsJumping (script f) = false /\
   totoroJump_start (script f) = 0 /\
   rain_count (script f) = jump_rain_count f).
Proof.
  intro H. unfold pauses, turns, walks_in in H.
  unfold script, totoro_jump, jump_height.
  cbv zeta. rewrite H. cbn [andb].
  split; intro L; rewrite L; cbn; repeat split.
Qed.

Ltac pool_fields :=
  cbn [self set_self set_bodies set_time_scale set_raining set_flags set_pool
       press tick
       angle angleSatsuki scene_number time time_diff paused totoroPos
       totoroPosY totoroUmbrellaPos umbrellaState lightOn totoroJump
       totoroIsJumping totoroJump_start normal_rain_count jump_rain_count
       rain_count leg_angle facing_angle pickPurpleUmbrella random_draws]
    in *.

Lemma eqb_true (a b : Q) : eqb a b = true <-> a == b.
Proof. unfold eqb. apply Qeq_bool_iff. Qed.

Lemma eqb_false (a b : Q) : eqb a b = false <-> ~ a == b.
Proof.
  unfold eqb. split.
  - intros H E. apply Qeq_bool_iff in E. congruence.
  - intro N. destruct (Qeq_bool a b) eqn:E; [|reflexivity].
    apply Qeq_bool_iff in E. contradiction.
Qed.

(** X7.  The key "Make Totoro jump" against the script.  Pressed while the
    scene is paused and no jump is under way, it starts a jump at the next
    [update_state]: the jump is marked as running, its start time is the
    scene time of that step and Totoro is still on the ground (height
    1.1).  Pressed while the scene is not paused, it does not request a
    jump but clears the request flag; a second press before the next
    [update_state] withdraws the request of the first. *)
Theorem jump_request (d : Q) (s r : Sim Fields) :
  paused (self s) = true ->
  totoroIsJumping (self s) = false ->
  totoroJump (self s) = false ->
  totoroJump_start (self s) == 0 ->
  (let s' := update_state d (press Make_Totoro_jump s) in
   totoroJump (self s') = true /\
   totoroIsJumping (self s') = true /\
   totoroJump_start (self s') = time (self s) + d /\
   totoroPosY (self s') == 1.1 /\
   paused (self s') = true) /\
  totoroJump (self (press Make_Totoro_jump (press Make_Totoro_jump s)))
    = false /\
  (paused (self r) = false -> totoroIsJumping (self r) = false ->
   totoroJump (self (press Make_Totoro_jump r)) = false).
Proof.
  intros P J T S0. split; [|split].
  - cbv zeta. rewrite update_state_self.
    destruct (scripted_eq d (press Make_Totoro_jump s)) as (k & E).
    rewrite E. clear E. pool_fields. rewrite P, J, T in *. cbn [andb negb].
    match goal with
    | |- context [script ?g] => set (g0 := g)
    end.
    assert (Pg : pauses g0 && totoroJump g0 = true).
    { rewrite pauses_of_paused; [reflexivity|]. subst g0. pool_fields.
      congruence. }
    destruct (script_jump g0 Pg) as [Air _].
    rewrite script_paused, pauses_of_paused
      by (subst g0; pool_fields; congruence).
    subst g0. pool_fields.
    rewrite (proj2 (eqb_true _ _) S0) in Air.
    destruct Air as (H & A & B & C & _).
    { apply ltb_false. unfold jump_height. nra. }
    rewrite H, A, B, C. repeat split.
    unfold jump_height. ring.
  - pool_fields. rewrite P, J, T. reflexivity.
  - intros Pr Jr. pool_fields. rewrite Pr, Jr. reflexivity.
Qed.

(** X8.  The arc of a jump.  While the scene is paused and a jump that
    started at [totoroJump_start] is under way, one call of [update_state]
    puts Totoro at height [2.5 tau - tau^2 + 1.1], where [tau] is the
    scene time of the step minus the start: for [tau] in [0, 2.5] he is at
    or above the ground and the jump goes on; once [tau] exceeds 2.5 he
    lands, which sets the height to 1.1, clears the jump flags and the
    start time, and raises the target population to [jump_rain_count]. *)
Theorem jump_arc (d : Q) (s : Sim Fields) :
  paused (self s) = true ->
  totoroJump (self s) = true ->
  ~ totoroJump_start (self s) == 0 ->
  let tau := time (self s) + d - totoroJump_start (self s) in
  let s' := update_state d s in
  (0 <= tau -> tau <= 2.5 ->
   totoroPosY (self s') = jump_height tau /\
   1.1 <= totoroPosY (self s') /\
   totoroJump (self s') = true /\
   totoroIsJumping (self s') = true /\
   totoroJump_start (self s') = totoroJump_start (self s)) /\
  (2.5 < tau ->
   totoroPosY (self s') = 1.1 /\
   totoroJump (self s') = false /\
   totoroIsJumping (self s') = false /\
   totoroJump_start (self s') = 0 /\
   rain_count (self s') = jump_rain_count (self s)).
Proof.
  intros P T S0. cbv zeta. rewrite update_state_self.
  destruct (scripted_eq d s) as (k & E). rewrite E. clear E.
  match goal with
  | |- context [script ?g] => set (g0 := g)
  end.
  assert (Pg : pauses g0 && totoroJump g0 = true).
  { rewrite pauses_of_paused by (subst g0; pool_fields; exact P).
    subst g0. pool_fields. rewrite T. reflexivity. }
  destruct (script_jump g0 Pg) as [Air Land].
  subst g0. pool_fields.
  rewrite (proj2 (eqb_false _ _) S0) in Air, Land.
  split.
  - intros Lo Hi. destruct Air as (H & A & B & C & _).
    { apply ltb_false. unfold jump_height. nra. }
    rewrite H, A, B, C. repeat split; try assumption.
    unfold jump_height. nra.
  - intro Late. destruct Land as (H & A & B & C & R).
    { apply ltb_true. unfold jump_height. nra. }
    rewrite H, A, B, C, R. repeat split.
Qed.

(** X9.  A burst is bright and lasts one step.  In a call of
    [update_state] that no landing interrupts, every drop the replenish
    loop spawns is a sphere whose material is the bright one exactly when
    the target on entry is [jump_rain_count], and the ordinary rain
    material otherwise; and a burst target is put back to
    [normal_rain_count] by that same call, while any other target is
    kept. *)
Theorem burst_is_bright_and_one_shot (d : Q) (s : Sim Fields) (b : Body) :
  totoroJump (self s) = false ->
  In b (spawned d s) ->
  shape b = sphere /\
  material b
  = (if Nat.eqb (rain_count (self s)) (jump_rain_count (self s))
     then rainBright else rain) /\
  rain_count (self (update_state d s))
  = (if Nat.eqb (rain_count (self s)) (jump_rain_count (self s))
     then normal_rain_count (self s) else rain_count (self s)).
Proof.
  intros T Hb. rewrite TotoroFacts.spawned_eq in Hb.
  apply in_map_iff in Hb. destruct Hb as (k & <- & _).
  split; [reflexivity|]. split; [reflexivity|].
  rewrite update_state_self.
  destruct (scripted_eq d s) as (n & E). rewrite E. clear E.
  match goal with
  | |- context [script ?g] => set (g0 := g)
  end.
  destruct (script_no_jump g0) as (_ & _ & _ & _ & R).
  - subst g0. pool_fields. rewrite T. apply andb_false_r.
  - rewrite R. reflexivity.
Qed.

Lemma script_turning (f : Fields) :
  turns f = true ->
  paused (script f) = true /\
  facing_angle (script f)
  = (if walks_in f then - Math_PI / 2 else facing_angle f) + 0.006.
Proof.
  intro H. unfold turns, walks_in in H.
  open_script; cbn [paused facing_angle]; rewrite H; cbn [negb andb];
    split; reflexivity.
Qed.

(** X10.  Totoro's turn holds the pause.  While Totoro stands at the lamp
    ([totoroPos <= 0]) and has not finished turning ([facing_angle < 0]),
    "Continue scene" clears [paused] only until the next [update_state]:
    that call turns him by another 0.006 and pauses the scene again. *)
Theorem turning_totoro_keeps_pausing (d : Q) (s : Sim Fields) :
  totoroPos (self s) <= 0 ->
  facing_angle (self s) < 0 ->
  paused (self (press Continue_scene s)) = false /\
  paused (self (update_state d (press Continue_scene s))) = true /\
  facing_angle (self (update_state d (press Continue_scene s)))
  = facing_angle (self s) + 0.006.
Proof.
  intros Pos Face. split; [reflexivity|].
  rewrite update_state_self.
  destruct (scripted_eq d (press Continue_scene s)) as (n & E).
  rewrite E. clear E.
  match goal with
  | |- context [script ?g] => set (g0 := g)
  end.
  assert (W : walks_in g0 = false).
  { unfold walks_in. subst g0. pool_fields.
    rewrite (proj2 (ltb_false _ _) Pos). apply andb_false_r. }
  assert (Tn : turns g0 = true).
  { unfold turns. rewrite W. subst g0. pool_fields.
    rewrite (proj2 (leb_true _ _) Pos), (proj2 (ltb_true _ _) Face).
    reflexivity. }
  destruct (script_turning g0 Tn) as [A B].
  rewrite A, B, W. subst g0. pool_fields. split; reflexivity.
Qed.

(** Bounds on what the renderer is given: Totoro at or above the ground
    and both umbrella angles in [[0.1, 1.2]].  An angle grows by 0.1 only
    while it is below 1.1 and shrinks by 0.1 only while it is above 0.2;
    the upper end is closed because the machine reaches it, where ten
    notches above 0.1 sum to a double just below 1.1 and an eleventh
    follows. *)
Definition well_posed (f : Fields) : Prop :=
  1.1 <= totoroPosY f /\
  (0.1 <= angle f /\ angle f <= 1.2) /\
  (0.1 <= angleSatsuki f /\ angleSatsuki f <= 1.2).

Ltac split_conditions :=
  repeat match goal with
         | H : _ && _ = true |- _ =>
             apply andb_true_iff in H; destruct H
         end;
  repeat match goal with
         | H : ltb _ _ = true |- _ => apply ltb_true in H
         | H : ltb _ _ = false |- _ => apply ltb_false in H
         end.

Lemma script_well_posed (f : Fields) :
  well_posed f -> well_posed (script f).
Proof.
  intros (Y & (A0 & A1) & (S0 & S1)). unfold well_posed.
  open_script; cbn [totoroPosY angle angleSatsuki];
    repeat match goal with
           | |- context [if ?c then _ else _] =>
               let E := fresh "E" in destruct c eqn:E
           end;
    split_conditions; repeat split; lra.
Qed.

Lemma script_targets (f : Fields) :
  normal_rain_count (script f) = normal_rain_count f /\
  jump_rain_count (script f) = jump_rain_count f.
Proof. open_script; split; reflexivity. Qed.

Lemma script_rain_count (f : Fields) :
  rain_count (script f) = rain_count f \/
  rain_count (script f) = jump_rain_count f.
Proof. open_script; [right | left | left]; reflexivity. Qed.

(** ** Runs: sub-steps, key presses and mouse events in any order *)

Import Mouse_Controls.

(** What can happen to the scene between two frames, and one iteration of
    the loop of [simulate]. *)
Inductive Event : Type :=
| SubStep
| KeyPress (k : Key)
| MouseDown (position : Q * Q)
| MouseMove (position : Q * Q)
| MouseUp
| MouseOut.

Definition react (w : Sim Fields * Mouse) (e : Event) : Sim Fields * Mouse :=
  match e with
  | SubStep => (substep (fst w), snd w)
  | KeyPress k => (press k (fst w), snd w)
  | MouseDown p => (seen_by (mousedown p (snd w)) (fst w),
                    mousedown p (snd w))
  | MouseMove p => (fst w, mousemove p (snd w))
  | MouseUp => (fst w, mouseup (snd w))
  | MouseOut => (fst w, mouseout (snd w))
  end.

Definition run (events : list Event) (w : Sim Fields * Mouse)
  : Sim Fields * Mouse :=
  fold_left react events w.

(** The scene and the mouse as the constructors leave them.  The scene
    reads [pickPurpleUmbrella] through its reference to the controls, whose
    constructor leaves it undefined: it tests as false until the first
    mouse press. *)
Definition start : Sim Fields * Mouse :=
  (seen_by Mouse_Controls.new TotoroScene.new, Mouse_Controls.new).

(** A property of the scene that every event keeps holds after any run. *)
Lemma run_invariant (P : Sim Fields -> Prop) :
  (forall s, P s -> P (substep s)) ->
  (forall k s, P s -> P (press k s)) ->
  (forall m s, P s -> P (seen_by m s)) ->
  forall events w, P (fst w) -> P (fst (run events w)).
Proof.
  intros Hs Hk Hm events. unfold run.
  induction events as [|e events IH]; intros w Hw; [exact Hw|].
  simpl. apply IH. destruct e; simpl; auto.
Qed.

Lemma substep_self (s : Sim Fields) :
  self (substep s) = self (update_state (dt s) s).
Proof. reflexivity. Qed.

Lemma substep_bodies (s : Sim Fields) :
  bodies (substep s)
  = map (advance (dt s)) (bodies (update_state (dt s) s)).
Proof.
  unfold TotoroFacts.substep. cbn [after_update bodies].
  destruct (TotoroFacts.update_state_clock Math_random (dt s) s)
    as (s' & E & _ & _ & _ & D & _).
  injection E as E. rewrite <- E in D. rewrite D. reflexivity.
Qed.

(** X11.  Whatever the order of sub-steps, key presses and mouse events,
    the numbers the renderer reads stay in range: Totoro never sinks below
    his standing height 1.1 and both umbrella angles stay in
    [[0.1, 1.2]], as they are after the constructor. *)
Theorem scene_stays_well_posed (events : list Event)
    (w : Sim Fields * Mouse) :
  well_posed (self (fst w)) ->
  well_posed (self (fst (run events w))).
Proof.
  apply (run_invariant (fun s => well_posed (self s))).
  - intros s H. rewrite substep_self, update_state_self.
    apply script_well_posed.
    destruct (scripted_eq (dt s) s) as (k & E). rewrite E.
    exact H.
  - intros k s H. destruct k; exact H.
  - intros m s H. exact H.
Qed.

(** The targets are the two constants, in order, and no more bodies are
    live than the larger one. *)
Definition bounded_pool (s : Sim Fields) : Prop :=
  (rain_count (self s) = normal_rain_count (self s)
   \/ rain_count (self s) = jump_rain_count (self s)) /\
  (normal_rain_count (self s) <= jump_rain_count (self s))%nat /\
  (length (bodies s) <= jump_rain_count (self s))%nat.

Lemma update_state_bounded_pool (d : Q) (s : Sim Fields) :
  bounded_pool s -> bounded_pool (update_state d s).
Proof.
  intros (RC & NJ & Len). unfold bounded_pool.
  rewrite update_state_self.
  destruct (scripted_eq d s) as (k & E).
  destruct (script_targets (scripted d s)) as [N J].
  rewrite N, J.
  assert (G : rain_count (scripted d s) = normal_rain_count (self s)
              \/ rain_count (scripted d s) = jump_rain_count (self s)).
  { rewrite E. pool_fields. destruct (Nat.eqb _ _); [left; reflexivity|].
    exact RC. }
  assert (N' : normal_rain_count (scripted d s) = normal_rain_count (self s))
    by (rewrite E; reflexivity).
  assert (J' : jump_rain_count (scripted d s) = jump_rain_count (self s))
    by (rewrite E; reflexivity).
  rewrite N', J'. split; [|split; [exact NJ|]].
  - destruct (script_rain_count (scripted d s)) as [R|R]; rewrite R.
    + exact G.
    + right. exact J'.
  - rewrite TotoroFacts.update_state_bodies. unfold move_bodies.
    rewrite length_map.
    pose proof (TotoroFacts.filter_length_le survives
                  (map (gravity d) (replenished d s))) as F.
    rewrite length_map in F.
    assert (L : length (replenished d s)
                = (length (bodies s)
                   + (rain_count (self s) - length (bodies s)))%nat).
    { rewrite TotoroFacts.replenished_eq, length_app, length_map, length_seq.
      reflexivity. }
    destruct RC as [RC|RC]; rewrite RC in L; lia.
Qed.

(** X12.  The pool is bounded.  After any run of sub-steps, key presses
    and mouse events, the target population is one of the two constants
    [normal_rain_count] and [jump_rain_count], and the number of live
    bodies is at most [jump_rain_count]: the pool cannot grow beyond a
    burst. *)
Theorem pool_never_exceeds_a_burst (events : list Event)
    (w : Sim Fields * Mouse) :
  bounded_pool (fst w) ->
  bounded_pool (fst (run events w)).
Proof.
  apply (run_invariant bounded_pool).
  - intros s H. destruct (update_state_bounded_pool (dt s) H) as (A & B & C).
    unfold bounded_pool. rewrite substep_self, substep_bodies, length_map.
    repeat split; assumption.
  - intros k s H. destruct k; exact H.
  - intros m s H. exact H.
Qed.

(** A body with no horizontal velocity, above the square the drops are
    spawned over. *)
Definition straight (b : Body) : Prop :=
  at0 (linear_velocity b) == 0 /\ at2 (linear_velocity b) == 0 /\
  (-20 <= at0 (center b) /\ at0 (center b) < 20) /\
  (-20 <= at2 (center b) /\ at2 (center b) < 20).

Lemma gravity_straight (d : Q) (b : Body) :
  straight b -> straight (gravity d b).
Proof. intro H. exact H. Qed.

Lemma floor_response_straight (b : Body) :
  straight b -> straight (floor_response b).
Proof.
  intro H. unfold floor_response. destruct (_ && _); exact H.
Qed.

Lemma advance_straight (d : Q) (b : Body) :
  straight b -> straight (advance d b).
Proof.
  intros (V0 & V2 & C0 & C2). unfold straight.
  cbn [advance linear_velocity center plus times vmap at0 at2].
  rewrite V0, V2. repeat split; lra.
Qed.

Lemma drop_straight (rc jump_rc n k : nat) :
  TotoroFacts.unit_range Math_random ->
  straight (TotoroFacts.drop Math_random rc jump_rc n k).
Proof.
  intro U. unfold straight.
  cbn [TotoroFacts.drop emplace linear_velocity center].
  destruct TotoroFacts.spawn_velocity_down as (V0 & _ & V2).
  destruct (TotoroFacts.spawn_position_in_box (n + 4 * k) U)
    as (C0 & _ & C2).
  repeat split; try assumption; try apply C0; try apply C2.
Qed.

Lemma update_state_straight (d : Q) (s : Sim Fields) :
  TotoroFacts.unit_range Math_random ->
  Forall straight (bodies s) -> Forall straight (bodies (update_state d s)).
Proof.
  intros U H. rewrite Forall_forall in *. intros b Hb.
  rewrite TotoroFacts.update_state_bodies in Hb. unfold move_bodies in Hb.
  apply in_map_iff in Hb. destruct Hb as (b1 & <- & Hb1).
  apply filter_In in Hb1. destruct Hb1 as [Hb1 _].
  apply in_map_iff in Hb1. destruct Hb1 as (b0 & <- & Hb0).
  apply floor_response_straight, gravity_straight.
  rewrite TotoroFacts.replenished_eq in Hb0. apply in_app_or in Hb0.
  destruct Hb0 as [Old|New].
  - apply H. exact Old.
  - apply in_map_iff in New. destruct New as (k & <- & _).
    apply drop_straight. exact U.
Qed.

(** X13.  Rain falls straight down.  If every draw of the random source
    lies in [[0, 1)], then after any run of sub-steps, key presses and
    mouse events from a scene without bodies every live body has no
    horizontal velocity and is still above the square
    [[-20, 20) x [-20, 20)] it was spawned over: no body can stray
    sideways. *)
Theorem rain_falls_straight (events : list Event)
    (w : Sim Fields * Mouse) :
  TotoroFacts.unit_range Math_random ->
  Forall straight (bodies (fst w)) ->
  Forall straight (bodies (fst (run events w))).
Proof.
  intro U.
  apply (run_invariant (fun s => Forall straight (bodies s))).
  - intros s H. rewrite substep_bodies. rewrite Forall_forall.
    intros b Hb. apply in_map_iff in Hb. destruct Hb as (b0 & <- & Hb0).
    apply advance_straight.
    pose proof (@update_state_straight (dt s) s U H) as G.
    rewrite Forall_forall in G. apply G. exact Hb0.
  - intros k s H. destruct k; exact H.
  - intros m s H. exact H.
Qed.

Lemma script_umbrellas (f : Fields) :
  pauses f = true ->
  angleSatsuki (script f)
  = (if umbrellaState f && negb (TotoroScene.pickPurpleUmbrella f)
        && ltb (angleSatsuki f) 1.1
     then angleSatsuki f + 0.1
     else if negb (umbrellaState f) && negb (TotoroScene.pickPurpleUmbrella f)
             && ltb 0.2 (angleSatsuki f)
     then angleSatsuki f - 0.1
     else angleSatsuki f) /\
  angle (script f)
  = (if umbrellaState f && TotoroScene.pickPurpleUmbrella f && ltb (angle f) 1.1
     then angle f + 0.1
     else if negb (umbrellaState f) && TotoroScene.pickPurpleUmbrella f
             && ltb 0.2 (angle f)
     then angle f - 0.1
     else angle f).
Proof.
  intro H. unfold pauses, turns, walks_in in H.
  open_script; cbn [angle angleSatsuki]; rewrite H; cbn [negb andb];
    destruct (umbrellaState f), (TotoroScene.pickPurpleUmbrella f);
    cbn [negb andb];
    repeat match goal with
           | |- context [ltb ?a ?b] => destruct (ltb a b)
           end;
    cbn [negb andb]; split; reflexivity.
Qed.

(** X14.  Only the picked umbrella moves.  In a paused scene, a call of
    [update_state] that follows a mouse press moves the umbrella the press
    picked by one notch of 0.1, towards open (while its angle is below
    1.1) or towards closed (while it is above 0.2) as [umbrellaState]
    says, and leaves the other umbrella as it is. *)
Theorem picked_umbrella_moves (d : Q) (s : Sim Fields)
    (m : Mouse) (position : Q * Q) :
  paused (self s) = true ->
  let m' := mousedown position m in
  let s' := update_state d (seen_by m' s) in
  (picks_purple m' = true ->
   angleSatsuki (self s') = angleSatsuki (self s) /\
   angle (self s')
   = (if umbrellaState (self s)
      then if ltb (angle (self s)) 1.1
           then angle (self s) + 0.1 else angle (self s)
      else if ltb 0.2 (angle (self s))
           then angle (self s) - 0.1 else angle (self s))) /\
  (picks_purple m' = false ->
   angle (self s') = angle (self s) /\
   angleSatsuki (self s')
   = (if umbrellaState (self s)
      then if ltb (angleSatsuki (self s)) 1.1
           then angleSatsuki (self s) + 0.1 else angleSatsuki (self s)
      else if ltb 0.2 (angleSatsuki (self s))
           then angleSatsuki (self s) - 0.1 else angleSatsuki (self s))).
Proof.
  intro P. cbv zeta. rewrite update_state_self.
  destruct (scripted_eq d (seen_by (mousedown position m) s)) as (k & E).
  rewrite E. clear E.
  match goal with
  | |- context [script ?g] => set (g0 := g)
  end.
  destruct (script_umbrellas g0) as [A B].
  { apply pauses_of_paused. subst g0. unfold seen_by. pool_fields. exact P. }
  rewrite A, B. subst g0. unfold seen_by. pool_fields.
  split; intro Pick; rewrite Pick;
    destruct (umbrellaState (self s)); cbn [negb andb];
    split; reflexivity.
Qed.

End Script.

(** X6.  The three toggle keys ("Toggle Light", "Toggle Rain",
    "Open/Close Umbrella") act only while the scene is paused: pressed in
    a scene that is not paused they change nothing at all, and pressed
    twice in a paused scene they restore it. *)
Theorem toggles_need_the_pause (k : Key) (s : Sim Fields) :
  k = Toggle_Light \/ k = Toggle_Rain \/ k = Open_Close_Umbrella ->
  (paused (self s) = false -> press k s = s) /\
  (paused (self s) = true -> press k s <> s /\ press k (press k s) = s).
Proof.
  intro Hk. destruct s as [a b c e bs n r f]. destruct f. cbn [self paused].
  split; intro P; subst paused0;
    destruct Hk as [-> | [-> | ->]]; cbn;
    try reflexivity.
  - split; [|rewrite negb_involutive; reflexivity].
    intro E. injection E as E. destruct lightOn0; discriminate.
  - split; [|rewrite negb_involutive; reflexivity].
    intro E. injection E as E. destruct r; discriminate.
  - split; [|rewrite negb_involutive; reflexivity].
    intro E. injection E as E. destruct umbrellaState0; discriminate.
Qed.

Import Mouse_Controls.

(** X15.  What a mouse press picks.  The press reads the pointer position
    stored by the last mouse move, not its own.  It picks the pink
    umbrella exactly when that position is inside the pink box
    (10 < y < 130 and -190 < x < -170) and labels it so; inside the purple
    box (-300 < x < -280) it picks and labels the purple umbrella;
    anywhere else the label says that no umbrella is selected although the
    purple one is picked.  Before the first press nothing is picked, which
    the scene treats as the pink umbrella. *)
Theorem mouse_press_picks (position : Q * Q) (m : Mouse) :
  let x := fst (from_center m) in
  let y := snd (from_center m) in
  let m' := mousedown position m in
  (picks_purple m' = false <->
   (10 < y /\ y < 130) /\ (-190 < x /\ x < -170)) /\
  (cool_string m' = Some "pink umbrella"%string <->
   picks_purple m' = false) /\
  (cool_string m' = Some "purple umbrella"%string <->
   (10 < y /\ y < 130) /\ (-300 < x /\ x < -280)) /\
  (cool_string m' = Some "no umbrella selected"%string ->
   picks_purple m' = true) /\
  anchor m' = Some position /\ from_center m' = from_center m /\
  picks_purple Mouse_Controls.new = false.
Proof.
  cbv zeta. unfold mousedown, picks_purple.
  destruct (ltb 10 (snd (from_center m))) eqn:Y0;
  destruct (ltb (snd (from_center m)) 130) eqn:Y1;
  destruct (ltb (-300) (fst (from_center m))) eqn:P0;
  destruct (ltb (fst (from_center m)) (-280)) eqn:P1;
  destruct (ltb (-190) (fst (from_center m))) eqn:K0;
  destruct (ltb (fst (from_center m)) (-170)) eqn:K1;
  cbn;
  repeat match goal with
         | H : ltb _ _ = true |- _ => apply ltb_true in H
         | H : ltb _ _ = false |- _ => apply ltb_false in H
         end;
  repeat split; try reflexivity; try discriminate; try lra;
  try (intro; discriminate); try (intros; lra);
  try (intros [[? ?] [? ?]]; lra).
Qed.

Import Display.

(** X16.  Where a shadow is drawn.  The shadow disc lies on the plane
    y = 0.01, and its offset from the lamp at (-5, 0.9) in x and z is the
    offset of the object stretched by the factor 1 + 0.01/7: the shadow is
    pushed away from the lamp.  The height [y] passed to [draw_shadow] has
    no influence on position or scale, and the vertical scale is 1. *)
Theorem shadow_is_pushed_from_the_lamp
    (pow : Q -> Q -> Q) (x y y' z x_scale z_scale : Q) :
  let shadow := draw_shadow pow x y z x_scale z_scale in
  at1 (fst shadow) = 0.01 /\
  at0 (fst shadow) - -5 == (x - -5) * (1 + 0.01 / 7) /\
  at2 (fst shadow) - 0.9 == (z - 0.9) * (1 + 0.01 / 7) /\
  at1 (snd shadow) = 1 /\
  draw_shadow pow x y' z x_scale z_scale = shadow.
Proof.
  cbv zeta. unfold draw_shadow. cbn [fst snd at0 at1 at2].
  repeat split; field.
Qed.

End SceneFacts.

(** * Hiding the rain *)

Module RainToggle.

Import TotoroScene ControlPanel Display.

(** Apply a function to the state a call ends with. *)
Definition outcome_map {A B : Type} (f : A -> B) (o : outcome A)
  : outcome B :=
  match o with
  | Returned a => Returned (f a)
  | Threw msg a => Threw msg (f a)
  | OutOfFuel => OutOfFuel
  end.

Section Rain.

Variable Math_random : nat -> Q.

Abbreviation scene := (TotoroScene.scene Math_random).

Lemma replenish_raining (r : bool) (fuel : nat) :
  forall s,
    TotoroScene.replenish Math_random fuel (set_raining r s)
    = set_raining r (TotoroScene.replenish Math_random fuel s).
Proof.
  induction fuel as [|fuel IH]; intro s; [reflexivity|].
  simpl. destruct (Nat.ltb _ _); [|reflexivity].
  rewrite <- IH. reflexivity.
Qed.

Lemma update_state_raining (r : bool) (d : Q) (s : Sim Fields) :
  TotoroScene.update_state Math_random d (set_raining r s)
  = set_raining r (TotoroScene.update_state Math_random d s).
Proof.
  unfold TotoroScene.update_state.
  change (set_self (tick d (self (set_raining r s))) (set_raining r s))
    with (set_raining r (set_self (tick d (self s)) s)).
  cbn [self set_raining]. rewrite replenish_raining. reflexivity.
Qed.

Lemma after_update_raining (r : bool) (ft : Q) (s : Sim Fields) :
  after_update ft (set_raining r s) = set_raining r (after_update ft s).
Proof. reflexivity. Qed.

Lemma substeps_raining (r : bool) (fuel : nat) :
  forall ft s,
    substeps (scene := scene) fuel ft (set_raining r s)
    = outcome_map (set_raining r) (substeps (scene := scene) fuel ft s).
Proof.
  induction fuel as [|fuel IH]; intros ft s.
  - simpl. destruct (leb _ _); reflexivity.
  - cbn [substeps]. cbn [dt time_accumulator set_raining].
    destruct (leb _ _); [|reflexivity].
    cbn [Simulation.update_state TotoroScene.scene].
    rewrite update_state_raining, after_update_raining. apply IH.
Qed.

Lemma simulate_raining (r : bool) (fuel : nat) (ft : Q) (s : Sim Fields) :
  simulate (scene := scene) fuel ft (set_raining r s)
  = outcome_map (set_raining r) (simulate (scene := scene) fuel ft s).
Proof.
  unfold simulate.
  change (accumulate (time_scale (set_raining r s) * ft) (set_raining r s))
    with (set_raining r (accumulate (time_scale s * ft) s)).
  rewrite substeps_raining.
  change (time_scale (set_raining r s)) with (time_scale s).
  destruct (substeps _ _ _); reflexivity.
Qed.

(** X4.  "Toggle Rain" only hides the rain.  For either value of
    [raining], a frame of [display] leaves the scene in the state it would
    have reached otherwise, up to the flag itself: bodies are spawned,
    moved, retired and blended all the same.  With the flag off nothing is
    drawn; with it on there is one draw per live body.  A frame that does
    not animate returns at once, and an animated frame of forward playback
    returns within the iterations that work off the ceiling of 0.1. *)
Theorem rain_toggle_only_hides (r : bool) (fuel : nat)
    (animate : bool) (delta : Q) (s : Sim Fields) :
  outcome_map fst (display (scene := scene) fuel animate delta
                     (set_raining r s))
  = outcome_map (fun p => set_raining r (fst p))
      (display (scene := scene) fuel animate delta s) /\
  (forall s' draws,
     display (scene := scene) fuel animate delta (set_raining r s)
     = Returned (s', draws) ->
     length draws = (if r then length (bodies s') else 0%nat)) /\
  (animate = false \/
   (0 < dt s /\ 0 <= time_accumulator s /\ time_accumulator s < dt s /\
    0 <= time_scale s * delta /\
    (Z.to_nat (Qceiling (0.1 / dt s)) <= fuel)%nat) ->
   exists s' draws,
     display (scene := scene) fuel animate delta (set_raining r s)
     = Returned (s', draws) /\
     length draws = (if r then length (bodies s') else 0%nat)).
Proof.
  assert (D : forall u : Sim Fields, raining u = r ->
              length (draw_bodies u)
              = (if r then length (bodies u) else 0%nat)).
  { intros u <-. unfold draw_bodies. destruct (raining u);
      [apply length_map | reflexivity]. }
  assert (Counted : forall s' draws,
            display (scene := scene) fuel animate delta (set_raining r s)
            = Returned (s', draws) ->
            length draws = (if r then length (bodies s') else 0%nat)).
  { intros s' draws H. unfold display in H. destruct animate.
    - rewrite simulate_raining in H.
      destruct (simulate _ _ _) as [s1| |]; try discriminate.
      cbn [outcome_map] in H. injection H as <- <-. apply D. reflexivity.
    - injection H as <- <-. apply D. reflexivity. }
  split; [|split].
  - unfold display. destruct animate; [|reflexivity].
    rewrite simulate_raining.
    destruct (simulate _ _ _); reflexivity.
  - exact Counted.
  - intro H.
    assert (R : exists p,
              display (scene := scene) fuel animate delta (set_raining r s)
              = Returned p).
    { unfold display. destruct animate.
      - destruct H as [H|(Hd & Lo & Hi & Hft & Hfuel)]; [discriminate|].
        destruct (@forward_frame_returns _ scene
                    (TotoroFacts.update_state_clock Math_random)
                    (set_raining r s) delta fuel Hd Lo Hi Hft Hfuel)
          as (s1 & E).
        rewrite E. eexists. reflexivity.
      - eexists. reflexivity. }
    destruct R as ((s' & draws) & R).
    exists s', draws. split; [exact R | apply Counted; exact R].
Qed.

End Rain.

End RainToggle.

(** * The pool of the first revision *)

Module FirstRevision.

Import TotoroScene1.

Section Pool.

Variable Math_random : nat -> Q.

(** The drop the [k]-th [push] of a run of the loop builds, when [n] draws
    were made before the loop and the rain material is [m]. *)
Definition drop (m : Material) (n k : nat) : Body :=
  emplace cylinder m (Vec3 0.05 0.05 0.05)
    (spawn_position Math_random (n + 4 * k)) spawn_velocity
    (Math_random (n + 4 * k + 3)).

Lemma replenish1_appends (fuel : nat) :
  forall s,
    bodies (replenish Math_random fuel s)
    = bodies s ++
      map (drop (materials_rain (self s)) (random_draws (self s)))
          (seq 0 (Nat.min fuel (rain_count (self s) - length (bodies s)))).
Proof.
  induction fuel as [|fuel IH]; intro s.
  - simpl. rewrite app_nil_r. reflexivity.
  - simpl replenish. destruct (Nat.ltb _ _) eqn:E.
    + apply Nat.ltb_lt in E. rewrite IH.
      cbn [spawn bodies self set_self set_bodies set_pool
           rain_count materials_rain random_draws].
      rewrite length_app. cbn [length].
      replace (rain_count (self s) - (length (bodies s) + 1))%nat
        with (rain_count (self s) - length (bodies s) - 1)%nat by lia.
      destruct (rain_count (self s) - length (bodies s))%nat as [|m] eqn:M;
        [lia|].
      replace (Nat.min (S fuel) (S m)) with (S (Nat.min fuel m)) by lia.
      replace (S m - 1)%nat with m by lia.
      cbn [seq map]. rewrite <- app_assoc. cbn [app]. f_equal. f_equal.
      * unfold drop. rewrite Nat.mul_0_r, !Nat.add_0_r. reflexivity.
      * rewrite <- seq_shift, map_map. apply map_ext. intro k.
        unfold drop. f_equal; [f_equal; lia | f_equal; lia].
    + apply Nat.ltb_ge in E.
      replace (rain_count (self s) - length (bodies s))%nat with 0%nat by lia.
      rewrite Nat.min_0_r. simpl. rewrite app_nil_r. reflexivity.
Qed.

Lemma spawn_velocity1_down :
  at0 spawn_velocity == 0 /\ at1 spawn_velocity == -3 /\
  at2 spawn_velocity == 0.
Proof. repeat split; vm_compute; reflexivity. Qed.

(** X17.  In the first revision the ground kills on arrival.  A call of
    [update_state] with a step size in (0, 12] runs gravity and the bounce
    before the filter, and new drops start at speed exactly 3, the
    threshold of the filter.  So of the drops the call spawns, those placed
    at height 0 or above survive it (gravity has made them faster than 3),
    and those placed below 0 are bounced to a fifth of their speed and
    deleted by the same call: they are never drawn. *)
Theorem ground_kills_on_arrival (d : Q) (s : Sim Fields) (k : nat) :
  TotoroFacts.unit_range Math_random ->
  0 < d -> d <= 12 ->
  let b := drop (materials_rain (self s)) (random_draws (self s)) k in
  bodies (update_state Math_random d s)
  = filter survives
      (map (gravity_and_floor d)
         (bodies s ++
          map (drop (materials_rain (self s)) (random_draws (self s)))
              (seq 0 (rain_count (self s) - length (bodies s))))) /\
  survives (gravity_and_floor d b) = leb 0 (at1 (center b)).
Proof.
  intros U Hd Hd12 b. split.
  - unfold update_state. cbn [bodies set_self set_bodies]. unfold move_bodies.
    rewrite replenish1_appends.
    cbn [bodies self set_self tick set_pool rain_count materials_rain
         random_draws].
    rewrite Nat.min_r by lia. reflexivity.
  - destruct spawn_velocity1_down as (V0 & V1 & V2).
    destruct (TotoroFacts.spawn_position_in_box
                (random_draws (self s) + 4 * k) U) as (C0 & C1 & C2).
    change (TotoroScene.spawn_position Math_random
              (random_draws (self s) + 4 * k))
      with (center b) in C0, C1, C2.
    assert (Vb : linear_velocity b = spawn_velocity) by reflexivity.
    unfold survives, gravity_and_floor.
    cbn [set_velocity1 linear_velocity center at1].
    rewrite Vb.
    assert (F : ltb (at1 spawn_velocity + d * -1) 0 = true)
      by (apply ltb_true; lra).
    rewrite F, andb_true_r.
    destruct (ltb (at1 (center b)) 0) eqn:Below.
    + apply ltb_true in Below.
      rewrite (proj2 (leb_false 0 (at1 (center b))) Below).
      apply andb_false_iff. right.
      destruct (norm_gt _ 3) eqn:G; [|reflexivity].
      apply TotoroFacts.norm_gt_true in G. exfalso.
      unfold dot in G. cbn [set_velocity1 linear_velocity at0 at1 at2] in G.
      destruct G as [G|G]; [lra|].
      rewrite Vb, V0, V1, V2 in G.
      assert (0 <= (3 - (0.6 + 0.2 * d)) * (3 + (0.6 + 0.2 * d)))
        by (apply Qmult_le_0_compat; lra).
      lra.
    + apply ltb_false in Below.
      rewrite (proj2 (leb_true 0 (at1 (center b))) Below).
      apply andb_true_iff. split.
      * apply TotoroFacts.norm_lt_true. split; [reflexivity|].
        unfold dot. cbn [set_velocity1 center].
        assert (0 <= (20 - at0 (center b)) * (20 + at0 (center b)))
          by (apply Qmult_le_0_compat; lra).
        assert (0 <= (30 - at1 (center b)) * at1 (center b))
          by (apply Qmult_le_0_compat; lra).
        assert (0 <= (20 - at2 (center b)) * (20 + at2 (center b)))
          by (apply Qmult_le_0_compat; lra).
        lra.
      * apply TotoroFacts.norm_gt_true. right.
        unfold dot. cbn [set_velocity1 linear_velocity at0 at1 at2].
        rewrite Vb, V0, V1, V2.
        assert (0 < d * (6 + d)) by (apply Qmult_lt_0_compat; lra).
        lra.
Qed.

End Pool.

End FirstRevision.

(** * The clamp and the pool of [Assignment3] *)

Section ClampExtras.

Context {X : Type} {scene : Scene X}.


End ClampExtras.

Module Assignment3Facts.

Import Assignment3.

Section Demo.

Variable Math_random : nat -> Q.
Variable Math_sqrt : Q -> Q.

Lemma replenish_length (fuel : nat) :
  forall s,
    length (bodies (replenish Math_random Math_sqrt fuel s))
    = (length (bodies s) + Nat.min fuel (30 - length (bodies s)))%nat.
Proof.
  induction fuel as [|fuel IH]; intro s; cbn [replenish]; [lia|].
  destruct (Nat.ltb _ _) eqn:E.
  - apply Nat.ltb_lt in E. rewrite IH.
    cbn [spawn bodies set_self set_bodies]. rewrite length_app. cbn [length].
    lia.
  - apply Nat.ltb_ge in E. lia.
Qed.

(** X20.  The pool of [Assignment3].  Whatever the square root computes,
    after a call of [update_state] every live body has a norm of its
    center below 50 and a norm of its velocity above 3, and there are at
    most as many bodies as the larger of 30 and the count on entry: a pool
    that starts with at most 30 bodies never holds more. *)
Theorem demo_pool_is_bounded_and_lively (d : Q) (s : Sim Fields) :
  (length (bodies (update_state Math_random Math_sqrt d s))
   <= Nat.max 30 (length (bodies s)))%nat /\
  forall b,
    In b (bodies (update_state Math_random Math_sqrt d s)) ->
    norm Math_sqrt (center b) < 50 /\
    3 < norm Math_sqrt (linear_velocity b).
Proof.
  unfold update_state. cbn [bodies set_bodies]. split.
  - pose proof (TotoroFacts.filter_length_le (survives Math_sqrt)
                  (map (gravity_and_floor d)
                     (bodies (replenish Math_random Math_sqrt 30 s)))) as F.
    rewrite length_map, replenish_length in F. lia.
  - intros b Hb. apply filter_In in Hb. destruct Hb as [_ S].
    unfold survives in S. apply andb_true_iff in S. destruct S as [Near Fast].
    apply ltb_true in Near. apply ltb_true in Fast.
    split; assumption.
Qed.

End Demo.

End Assignment3Facts.


(** * Concrete runs of the further properties *)

Import SceneFacts ControlPanel Mouse_Controls.

(** The fields of a fresh scene with the pause, the jump and Totoro's place
    set by hand. *)
Definition staged (paused' jump' jumping' : bool)
    (time' start' pos' facing' : Q) : Sim TotoroScene.Fields :=
  Simulation.new
    {| TotoroScene.angle := 0.1; TotoroScene.angleSatsuki := 1.1;
       TotoroScene.scene_number := 2; TotoroScene.time := time';
       TotoroScene.time_diff := 0; TotoroScene.paused := paused';
       TotoroScene.totoroPos := pos'; TotoroScene.totoroPosY := 1.1;
       TotoroScene.totoroUmbrellaPos := Vec3 (-4) 2 0;
       TotoroScene.umbrellaState := true; TotoroScene.lightOn := true;
       TotoroScene.totoroJump := jump';
       TotoroScene.totoroIsJumping := jumping';
       TotoroScene.totoroJump_start := start';
       TotoroScene.normal_rain_count := 500;
       TotoroScene.jump_rain_count := 1000; TotoroScene.rain_count := 500;
       TotoroScene.leg_angle := 0; TotoroScene.facing_angle := facing';
       TotoroScene.pickPurpleUmbrella := false;
       TotoroScene.random_draws := 0 |}.

(** Paused at the lamp, no jump requested. *)
Definition waiting : Sim TotoroScene.Fields :=
  staged true false false 60 0 0 0.

(** Paused at the lamp, three seconds into a jump that started at 60. *)
Definition in_the_air : Sim TotoroScene.Fields :=
  staged true true true 63 60 0 0.

(** At the lamp, a quarter turn from facing the viewer. *)
Definition turning : Sim TotoroScene.Fields :=
  staged true false false 60 0 0 (-1).

Lemma zero_frame_is_idle_witness :
  exists s',
    simulate (scene := Base) 0 0 (Simulation.new tt) = Returned s' /\
    steps_taken s' = 0%Z.
Proof.
  destruct (@zero_frame_is_idle unit Base (Simulation.new tt) 0 0)
    as (s' & R & N & _).
  - reflexivity.
  - reflexivity.
  - exists s'. split; assumption.
Defined.

Lemma zero_frame_with_debt_never_returns_witness :
  simulate (scene := TotoroScene.scene midway) 7 0
           (set_time_accumulator 0.2 TotoroScene.new) = OutOfFuel.
Proof.
  apply (@zero_frame_with_debt_never_returns _ (TotoroScene.scene midway)
           (TotoroFacts.update_state_clock midway)).
  - reflexivity.
  - vm_compute. discriminate.
  - reflexivity.
Defined.

Lemma toggles_need_the_pause_witness :
  press Toggle_Rain TotoroScene.new = TotoroScene.new /\
  press Toggle_Rain (press Toggle_Rain waiting) = waiting.
Proof.
  split.
  - apply (proj1 (@toggles_need_the_pause Toggle_Rain TotoroScene.new
                    (or_intror (or_introl eq_refl)))).
    reflexivity.
  - apply (proj2 (@toggles_need_the_pause Toggle_Rain waiting
                    (or_intror (or_introl eq_refl)))).
    reflexivity.
Defined.

Lemma jump_request_witness :
  let s' := TotoroScene.update_state midway (1 / 20)
              (press Make_Totoro_jump waiting) in
  TotoroScene.totoroIsJumping (self s') = true /\
  TotoroScene.totoroJump_start (self s') = 60 + 1 / 20.
Proof.
  destruct (@jump_request midway (1 / 20) waiting TotoroScene.new)
    as ((_ & J & S & _) & _).
  - reflexivity.
  - reflexivity.
  - reflexivity.
  - reflexivity.
  - split; assumption.
Defined.

Lemma jump_arc_witness :
  let s' := TotoroScene.update_state midway (1 / 20) in_the_air in
  TotoroScene.totoroPosY (self s') = 1.1 /\
  TotoroScene.rain_count (self s') = 1000%nat.
Proof.
  destruct (@jump_arc midway (1 / 20) in_the_air) as (_ & Land).
  - reflexivity.
  - reflexivity.
  - vm_compute. discriminate.
  - destruct Land as (Y & _ & _ & _ & R).
    + vm_compute. reflexivity.
    + split; assumption.
Defined.

Lemma burst_is_bright_and_one_shot_witness :
  let b := hd low_drop (TotoroFacts.spawned midway (1 / 20) landed) in
  material b = rainBright /\
  TotoroScene.rain_count
    (self (TotoroScene.update_state midway (1 / 20) landed)) = 500%nat.
Proof.
  intro b.
  destruct (@burst_is_bright_and_one_shot midway (1 / 20) landed b)
    as (_ & M & R).
  - reflexivity.
  - apply hd_In. intro E. apply (f_equal (@length Body)) in E.
    vm_compute in E. discriminate E.
  - split; assumption.
Defined.

Lemma turning_totoro_keeps_pausing_witness :
  TotoroScene.paused
    (self (TotoroScene.update_state midway (1 / 20)
             (press Continue_scene turning))) = true.
Proof.
  apply (@turning_totoro_keeps_pausing midway (1 / 20) turning).
  - vm_compute. discriminate.
  - reflexivity.
Defined.

Lemma scene_stays_well_posed_witness :
  well_posed
    (self (fst (run midway
                  [SubStep; KeyPress Open_Close_Umbrella; MouseDown (0, 0);
                   SubStep]
                  start))).
Proof.
  apply (@scene_stays_well_posed midway).
  repeat split; vm_compute; discriminate || reflexivity.
Defined.

Lemma pool_never_exceeds_a_burst_witness :
  (length (bodies (fst (run midway
                          [SubStep; KeyPress Make_Totoro_jump; SubStep]
                          start))) <= 1000)%nat.
Proof.
  apply (@pool_never_exceeds_a_burst midway
           [SubStep; KeyPress Make_Totoro_jump; SubStep] start).
  unfold bounded_pool. cbn. repeat split; [left; reflexivity | lia | lia].
Defined.

Lemma rain_falls_straight_witness :
  Forall straight
    (bodies (fst (run midway [SubStep; MouseMove (3, 4); SubStep] start))).
Proof.
  apply (@rain_falls_straight midway).
  - exact midway_unit_range.
  - constructor.
Defined.

Lemma picked_umbrella_moves_witness :
  let m := mousedown (0, 0) (mousemove (-180, 50) Mouse_Controls.new) in
  let s' := TotoroScene.update_state midway (1 / 20)
              (seen_by m (press Open_Close_Umbrella waiting)) in
  TotoroScene.angle (self s') = 0.1 /\
  TotoroScene.angleSatsuki (self s') = 1.1 - 0.1.
Proof.
  destruct (@picked_umbrella_moves midway (1 / 20)
              (press Open_Close_Umbrella waiting)
              (mousemove (-180, 50) Mouse_Controls.new) (0, 0))
    as (_ & Pink).
  - reflexivity.
  - apply Pink. reflexivity.
Defined.

Lemma ground_kills_on_arrival_witness :
  TotoroScene1.survives
    (TotoroScene1.gravity_and_floor (1 / 20)
       (FirstRevision.drop low rain 0 0)) = false.
Proof.
  apply (@FirstRevision.ground_kills_on_arrival low (1 / 20)
           TotoroScene1.new 0).
  - intro n. unfold low. split; lra.
  - reflexivity.
  - vm_compute. discriminate.
Defined.


Lemma mouse_press_picks_witness :
  let m := mousedown (0, 0) (mousemove (-290, 50) Mouse_Controls.new) in
  cool_string m = Some "purple umbrella"%string /\
  (picks_purple (mousedown (0, 0) Mouse_Controls.new) = false -> False).
Proof.
  intro m.
  destruct (@mouse_press_picks (0, 0) (mousemove (-290, 50) Mouse_Controls.new))
    as (_ & _ & (_ & Purple) & _).
  destruct (@mouse_press_picks (0, 0) Mouse_Controls.new)
    as ((Pink & _) & _).
  split.
  - apply Purple. repeat split; reflexivity.
  - intro P. apply Pink in P. destruct P as ((P & _) & _).
    vm_compute in P. discriminate P.
Defined.

Lemma rain_toggle_only_hides_witness :
  exists s' draws,
    Display.display (scene := TotoroScene.scene midway) 2 true (1 / 10)
      (set_raining false ten_drops) = Returned (s', draws) /\
    length draws = 0%nat.
Proof.
  apply (proj2 (proj2 (@RainToggle.rain_toggle_only_hides midway false 2 true
                         (1 / 10) ten_drops))).
  right. split; [reflexivity|]. split; [vm_compute; discriminate|].
  split; [reflexivity|]. split; [vm_compute; discriminate|].
  vm_compute. lia.
Defined.

Lemma demo_pool_is_bounded_and_lively_witness :
  let b := hd low_drop
             (bodies (Assignment3.update_state midway JS.Math_sqrt (1 / 20)
                        Assignment3.new)) in
  3 < Assignment3.norm JS.Math_sqrt (linear_velocity b).
Proof.
  intro b.
  apply (proj2 (@Assignment3Facts.demo_pool_is_bounded_and_lively
                  midway JS.Math_sqrt (1 / 20) Assignment3.new) b).
  apply hd_In. intro E. apply (f_equal (@length Body)) in E.
  vm_compute in E. discriminate E.
Defined.
